(** * FinBot1: the batched quote pipeline of [crypto_analysis.py]

    A shallow embedding of [src/crypto_analysis.py]: the [CryptoCache] class,
    [get_batch_quotes], [process_all_tickers] and the ticker list of [main],
    together with the small part of Python's dynamic semantics these
    functions rely on (truthiness, [.get], subscripting, [in], arithmetic on
    JSON numbers, [try]/[except]).

    Conventions.
    - JSON documents and payloads are values of type [value]; a JSON object is
      a [gmap string value] (the insertion order of a Python dict is never
      observed by the code).  A JSON number is an [int] of any size
      ([VInt]) or a binary64 [float] ([VFloat]), as [json.loads] reads it;
      an integer that meets a float in arithmetic is converted to the
      nearest float and raises [OverflowError] beyond the float range, and
      the quotient of two integers is rounded once.  [True]/[False] take
      part in arithmetic as the integers 1 and 0.  [str.upper], [str.strip]
      and [sorted] are the ASCII ones.
    - Time is an integer count of microseconds, the resolution of
      [datetime]; [datetime.isoformat]/[datetime.fromisoformat] are the two
      fields of the class [IsoFormat].  The clock moves only while the
      program sleeps.
    - The environment (credential, cache file, clock, network) is the record
      [world]; effectful code runs in the monad [M], which keeps the world
      of a run that raises.  Network replies are read from a script
      ([net]).  The text a [print] writes is not modelled, and writing it
      never fails; where building the text can raise, the expression that
      builds it is modelled ([api_error_message], and [success_message] for
      the message that follows the assignment of a score).
    - [trace] is a ghost log of the calls that matter for pacing: every entry
      into [get_batch_quotes], every HTTP request and every [asyncio.sleep],
      tagged with the call site. *)

From Stdlib Require Import ZArith String Ascii Floats.
From Stdlib Require Import Decimal DecimalString DecimalZ DecimalPos.
From stdpp Require Import gmap strings list fin_maps sorting.

Set Warnings "-register-all,-inexact-float".
Local Open Scope string_scope.
Local Open Scope list_scope.

(** ** Python values and exceptions *)

Inductive value : Type :=
| VNone
| VBool (b : bool)
| VInt (n : Z)
| VFloat (f : float)
| VStr (s : string)
| VList (l : list value)
| VDict (d : gmap string value).

Inductive exn : Type :=
| TypeError | KeyError | AttributeError | IndexError
| ValueError | ZeroDivisionError | OverflowError | OSError.

Inductive outcome (A : Type) : Type :=
| Ok (a : A)
| Raise (e : exn).
Arguments Ok {A} a.
Arguments Raise {A} e.

Definition bindE {A B} (m : outcome A) (k : A -> outcome B) : outcome B :=
  match m with
  | Ok a => k a
  | Raise e => Raise e
  end.

Notation "'let!' x ':=' m 'in' k" := (bindE m (fun x => k))
  (at level 10, x name, m at level 100, k at level 200, only parsing).

Module Py.

(** [bool(v)]: [None], [False], zero, the empty string, list and dict are
    falsy; NaN is truthy. *)
Definition truthy (v : value) : bool :=
  match v with
  | VNone => false
  | VBool b => b
  | VInt n => negb (Z.eqb n 0)
  | VFloat f => negb (PrimFloat.eqb f 0%float)
  | VStr s => negb (String.eqb s "")
  | VList l => negb (Nat.eqb (length l) 0)
  | VDict d => negb (Nat.eqb (size d) 0)
  end.

(** [o.get(k, default)]: only a dict has the method. *)
Definition get (o : value) (k : string) (dflt : value) : outcome value :=
  match o with
  | VDict d => Ok (default dflt (d !! k))
  | _ => Raise AttributeError
  end.

(** [o[k]] for a string [k]. *)
Definition getitem (o : value) (k : string) : outcome value :=
  match o with
  | VDict d => match d !! k with Some v => Ok v | None => Raise KeyError end
  | _ => Raise TypeError
  end.

(** [o[0]]: a JSON object has no integer key. *)
Definition getitem0 (o : value) : outcome value :=
  match o with
  | VList [] => Raise IndexError
  | VList (x :: _) => Ok x
  | VStr EmptyString => Raise IndexError
  | VStr (String c _) => Ok (VStr (String c EmptyString))
  | VDict _ => Raise KeyError
  | _ => Raise TypeError
  end.

(** [o[k] = v] for a string [k]; the updated object is returned. *)
Definition setitem (o : value) (k : string) (v : value) : outcome value :=
  match o with
  | VDict d => Ok (VDict (<[k := v]> d))
  | _ => Raise TypeError
  end.

(** [k in o] for a string [k]: key of a dict, element of a list,
    substring of a string; anything else is not iterable. *)
Definition contains (k : string) (o : value) : outcome bool :=
  match o with
  | VDict d => Ok (bool_decide (is_Some (d !! k)))
  | VList l =>
      Ok (existsb (fun x => match x with VStr s => String.eqb s k | _ => false end) l)
  | VStr s => Ok (match String.index 0 k s with Some _ => true | None => false end)
  | _ => Raise TypeError
  end.

(** [len(o)]. *)
Definition len (o : value) : outcome nat :=
  match o with
  | VStr s => Ok (String.length s)
  | VList l => Ok (length l)
  | VDict d => Ok (size d)
  | _ => Raise TypeError
  end.

(** [float(n)] for an integer [n]: the nearest float, ties to even;
    [OverflowError] when that is beyond the largest float. *)
Definition float_of_int (n : Z) : outcome float :=
  match binary_normalize prec emax n 0 false with
  | S754_infinity _ => Raise OverflowError
  | x => Ok (SF2Prim x)
  end.

(** The integer a [bool] or an [int] is. *)
Definition as_int (v : value) : option Z :=
  match v with
  | VBool b => Some (if b then 1%Z else 0%Z)
  | VInt n => Some n
  | _ => None
  end.

Definition is_number (v : value) : bool :=
  match v with
  | VBool _ | VInt _ | VFloat _ => true
  | _ => false
  end.

(** The float a number stands for when it meets a float in arithmetic. *)
Definition num (v : value) : outcome float :=
  match v with
  | VFloat f => Ok f
  | VBool b => Ok (if b then 1%float else 0%float)
  | VInt n => float_of_int n
  | _ => Raise TypeError
  end.

(** [v > 0]: an integer is compared as it is. *)
Definition gt_zero (v : value) : outcome bool :=
  match v with
  | VInt n => Ok (Z.ltb 0 n)
  | _ => let! x := num v in Ok (PrimFloat.ltb 0%float x)
  end.

(** [v == 0]: never raises. *)
Definition eq_zero (v : value) : bool :=
  match v with
  | VInt n => Z.eqb n 0
  | _ =>
      match num v with
      | Ok x => PrimFloat.eqb x 0%float
      | Raise _ => false
      end
  end.

(** [c * v] for a float constant [c]. *)
Definition mul (c : float) (v : value) : outcome float :=
  let! x := num v in Ok (c * x)%float.

(** [a / b] on integers: the float nearest to the quotient, ties to even. *)
Definition int_truediv (a b : Z) : outcome float :=
  match b, a with
  | Z0, _ => Raise ZeroDivisionError
  | _, Z0 => Ok (if Z.ltb b 0 then PrimFloat.neg_zero else PrimFloat.zero)
  | _, _ =>
      match SFdiv prec emax (S754_finite (Z.ltb a 0) (Z.to_pos (Z.abs a)) 0)
                            (S754_finite (Z.ltb b 0) (Z.to_pos (Z.abs b)) 0) with
      | S754_infinity _ => Raise OverflowError
      | x => Ok (SF2Prim x)
      end
  end.

(** [a / b]: between two integers the division of integers; with a float on
    either side both operands are converted, the left one first. *)
Definition truediv (a b : value) : outcome float :=
  match as_int a, as_int b with
  | Some x, Some y => int_truediv x y
  | _, _ =>
      if is_number a && is_number b then
        let! x := num a in
        let! y := num b in
        if PrimFloat.eqb y 0%float then Raise ZeroDivisionError else Ok (x / y)%float
      else Raise TypeError
  end.

(** [format(v, ',.8f')] and [format(v, '.2f')], as far as they can raise: an
    integer is converted to a float first. *)
Definition format_fixed (v : value) : outcome unit :=
  match v with
  | VBool _ | VFloat _ => Ok tt
  | VInt n => let! _ := float_of_int n in Ok tt
  | VStr _ => Raise ValueError
  | _ => Raise TypeError
  end.

(** [s.upper()], on the ASCII letters. *)
Definition upper_ascii (c : ascii) : ascii :=
  let n := nat_of_ascii c in
  if Nat.leb 97 n && Nat.leb n 122 then ascii_of_nat (n - 32) else c.

Fixpoint upper (s : string) : string :=
  match s with
  | EmptyString => EmptyString
  | String c r => String (upper_ascii c) (upper r)
  end.

(** [sorted(l)] on strings. *)
Fixpoint insert_sorted (x : string) (l : list string) : list string :=
  match l with
  | [] => [x]
  | y :: r => if String.leb x y then x :: l else y :: insert_sorted x r
  end.

Definition sorted (l : list string) : list string := foldr insert_sorted [] l.

(** [sep.join(l)]. *)
Definition join (sep : string) (l : list string) : string := String.concat sep l.

(** [c.isspace()], on the ASCII characters: tab, line feed, vertical tab,
    form feed, carriage return, the separators 28 to 31, and space. *)
Definition isspace (c : ascii) : bool :=
  let n := nat_of_ascii c in
  (Nat.leb 9 n && Nat.leb n 13) || (Nat.leb 28 n && Nat.leb n 32).

(** [s.lstrip()], [s.rstrip()] and [s.strip()]. *)
Fixpoint lstrip (s : string) : string :=
  match s with
  | EmptyString => EmptyString
  | String c r => if isspace c then lstrip r else s
  end.

Fixpoint rstrip (s : string) : string :=
  match s with
  | EmptyString => EmptyString
  | String c r =>
      match rstrip r with
      | EmptyString => if isspace c then EmptyString else String c EmptyString
      | r' => String c r'
      end
  end.

Definition strip (s : string) : string := lstrip (rstrip s).

End Py.

(** ** Timestamps *)

(** [datetime.isoformat] and [datetime.fromisoformat]: the second reads back
    what the first writes, and a written timestamp is never the empty
    string.  [fromisoformat] answers [None] where Python raises
    [ValueError]. *)
Class IsoFormat := {
  isoformat : Z -> string;
  fromisoformat : string -> option Z;
  fromisoformat_isoformat : forall t, fromisoformat (isoformat t) = Some t;
  isoformat_nonempty : forall t, isoformat t <> ""
}.


(** ** The environment of a run *)

(** The cache file [crypto_cache.json]: absent, present but not openable,
    present but not JSON, or holding a JSON document. *)
Inductive file_state : Type :=
| FileAbsent
| FileUnreadable
| FileCorrupt
| FileDoc (doc : value).

(** What one HTTP request comes back with: a transport error, or a response
    with its status and its JSON body ([None] when [response.json()]
    raises). *)
Inductive http_reply : Type :=
| TransportError
| Reply (status : Z) (body : option value).

(** The three [asyncio.sleep] call sites: the rate-limit cooldown of
    [get_batch_quotes], the retry backoff and the pause after a batch of
    [process_all_tickers]. *)
Inductive sleep_site : Type := Cooldown | Backoff | Pacing.

Inductive event : Type :=
| EvFetch (symbols : list string)
| EvHttpGet (symbols : list string)
| EvSleep (site : sleep_site) (us : Z).

(** [env_key] is [os.getenv('CMC_API_KEY')]; [disk] is the cache file and
    [disk_writable] says whether it can be opened for writing; [clock] is
    what [datetime.now()] reads; [net] is the script of the replies still to
    come; [cache] is [self.cache] of the one [CryptoCache] object of a run;
    [trace] is the ghost log. *)
Record world : Type := World {
  env_key : option string;
  disk : file_state;
  disk_writable : bool;
  clock : Z;
  net : list http_reply;
  cache : value;
  trace : list event
}.

Definition M (A : Type) : Type := world -> outcome A * world.

Definition ret {A} (a : A) : M A := fun w => (Ok a, w).

Definition raise {A} (e : exn) : M A := fun w => (Raise e, w).

Definition bindM {A B} (m : M A) (k : A -> M B) : M B :=
  fun w =>
    match m w with
    | (Ok a, w') => k a w'
    | (Raise e, w') => (Raise e, w')
    end.

Notation "'let*' x ':=' m 'in' k" := (bindM m (fun x => k))
  (at level 10, x name, m at level 100, k at level 200, only parsing).

Definition lift {A} (o : outcome A) : M A := fun w => (o, w).

(** [try: m except Exception as e: h e]; what [m] did to the world before it
    raised stays done. *)
Definition try_except {A} (m : M A) (h : exn -> M A) : M A :=
  fun w =>
    match m w with
    | (Ok a, w') => (Ok a, w')
    | (Raise e, w') => h e w'
    end.

Definition getenv : M (option string) := fun w => (Ok (env_key w), w).

Definition datetime_now : M Z := fun w => (Ok (clock w), w).

Definition self_cache : M value := fun w => (Ok (cache w), w).

Definition put_cache (c : value) : M unit :=
  fun w =>
    (Ok tt, World (env_key w) (disk w) (disk_writable w) (clock w) (net w) c (trace w)).

Definition read_disk : M file_state := fun w => (Ok (disk w), w).

Definition write_disk (doc : value) : M unit :=
  fun w =>
    if disk_writable w
    then (Ok tt, World (env_key w) (FileDoc doc) (disk_writable w) (clock w)
                       (net w) (cache w) (trace w))
    else (Raise OSError, w).

Definition emit (e : event) : M unit :=
  fun w =>
    (Ok tt, World (env_key w) (disk w) (disk_writable w) (clock w) (net w)
                  (cache w) (trace w ++ [e])).

(** [await asyncio.sleep(us / 10**6)]. *)
Definition sleep (site : sleep_site) (us : Z) : M unit :=
  fun w =>
    (Ok tt, World (env_key w) (disk w) (disk_writable w) (clock w + us) (net w)
                  (cache w) (trace w ++ [EvSleep site us])).

(** One request to the quotes endpoint: the next reply of the script; an
    exhausted script is a transport error. *)
Definition http_get (symbols : list string) : M http_reply :=
  fun w =>
    let w' := World (env_key w) (disk w) (disk_writable w) (clock w)
                    (tail (net w)) (cache w) (trace w ++ [EvHttpGet symbols]) in
    match net w with
    | [] => (Ok TransportError, w')
    | r :: _ => (Ok r, w')
    end.

(** ** Module constants *)

Definition CACHE_EXPIRY : Z := 3600.
Definition BATCH_SIZE : nat := 100.

(** ** class CryptoCache *)

Module CryptoCache.
Section WithClock.
Context `{IsoFormat}.

Definition empty_cache : value :=
  VDict (<["quotes" := VDict ∅]> (<["timestamp" := VDict ∅]> ∅)).

(** [datetime.fromisoformat(v)]. *)
Definition py_fromisoformat (v : value) : outcome Z :=
  match v with
  | VStr s =>
      match fromisoformat s with
      | Some t => Ok t
      | None => Raise ValueError
      end
  | _ => Raise TypeError
  end.

(** [if name not in cache_data: cache_data[name] = {}]. *)
Definition ensure_mapping (name : string) (cache_data : value) : outcome value :=
  let! present := Py.contains name cache_data in
  if present then Ok cache_data else Py.setitem cache_data name (VDict ∅).

Definition _load_cache : M value :=
  let* loaded :=
    try_except
      (let* f := read_disk in
       match f with
       | FileAbsent => ret None
       | FileUnreadable => raise OSError
       | FileCorrupt => raise ValueError
       | FileDoc cache_data =>
           let* cache_data := lift (ensure_mapping "quotes" cache_data) in
           let* cache_data := lift (ensure_mapping "timestamp" cache_data) in
           ret (Some cache_data)
       end)
      (fun _ => ret None) in
  ret (default empty_cache loaded).

(** [CryptoCache()]. *)
Definition init : M unit :=
  let* c := _load_cache in put_cache c.

Definition save_cache : M unit :=
  try_except
    (let* c := self_cache in write_disk c)
    (fun _ => ret tt).

(** The age test compares [age.total_seconds()] with [CACHE_EXPIRY];
    on microsecond counts that is [age < CACHE_EXPIRY * 10**6]. *)
Definition is_valid (key data_type : string) : M bool :=
  try_except
    (let* c := self_cache in
     let* stamps := lift (Py.get c "timestamp" (VDict ∅)) in
     let* timestamp := lift (Py.get stamps key VNone) in
     if negb (Py.truthy timestamp) then ret false
     else
       let* now := datetime_now in
       let* t := lift (py_fromisoformat timestamp) in
       ret (Z.ltb (now - t) (CACHE_EXPIRY * 1000000)))
    (fun _ => ret false).

Definition get (key data_type : string) : M value :=
  try_except
    (let* valid := is_valid key data_type in
     if valid then
       let* c := self_cache in
       let* entries := lift (Py.getitem c data_type) in
       lift (Py.get entries key VNone)
     else ret VNone)
    (fun _ => ret VNone).

(** [self.cache[name][key] = v]: the nested mapping is updated in place. *)
Definition store (name key : string) (v : value) : M unit :=
  let* c := self_cache in
  let* entries := lift (Py.getitem c name) in
  let* entries := lift (Py.setitem entries key v) in
  let* c := lift (Py.setitem c name entries) in
  put_cache c.

(** [if name not in self.cache: self.cache[name] = {}]. *)
Definition ensure (name : string) : M unit :=
  let* c := self_cache in
  let* c := lift (ensure_mapping name c) in
  put_cache c.

Definition set (key data_type : string) (v : value) : M unit :=
  try_except
    (let* _ := ensure data_type in
     let* _ := store data_type key v in
     let* _ := ensure "timestamp" in
     let* now := datetime_now in
     let* _ := store "timestamp" key (VStr (isoformat now)) in
     save_cache)
    (fun _ => ret tt).

End WithClock.
End CryptoCache.

(** ** get_batch_quotes and process_all_tickers *)

Section Pipeline.
Context `{IsoFormat}.

(** [response.status == 200 and data.get('status', {}).get('error_code') == 0]. *)
Definition api_success (status : Z) (data : value) : outcome bool :=
  if Z.eqb status 200 then
    let! st := Py.get data "status" (VDict ∅) in
    let! code := Py.get st "error_code" VNone in
    Ok (Py.eq_zero code)
  else Ok false.

(** [data.get('status', {}).get('error_message', 'Unknown error')]. *)
Definition api_error_message (data : value) : outcome value :=
  let! st := Py.get data "status" (VDict ∅) in
  Py.get st "error_message" (VStr "Unknown error").

Definition get_batch_quotes (symbols : list string) (api_key : string) : M value :=
  let* _ := emit (EvFetch symbols) in
  let cache_key := Py.join "," (Py.sorted symbols) in
  let* cached_data := CryptoCache.get cache_key "quotes" in
  if Py.truthy cached_data then ret cached_data
  else
    try_except
      (let* response := http_get symbols in
       match response with
       | TransportError => raise OSError
       | Reply status body =>
           if Z.eqb status 429 then
             let* _ := sleep Cooldown 10000000 in
             ret VNone
           else
             match body with
             | None => raise ValueError
             | Some data =>
                 let* success := lift (api_success status data) in
                 if success then
                   let* _ := CryptoCache.set cache_key "quotes" data in
                   ret data
                 else
                   let* _ := lift (api_error_message data) in
                   ret VNone
             end
       end)
      (fun _ => ret VNone).

(** [quote_data and 'data' in quote_data]. *)
Definition has_data (quote_data : value) : outcome bool :=
  if Py.truthy quote_data then Py.contains "data" quote_data else Ok false.

(** The [for retry in range(3)] loop of one batch; [quote_data] and
    [api_calls] are the loop's variables. *)
Fixpoint retry_loop (retries : list nat) (batch : list string) (api_key : string)
    (quote_data : value) (api_calls : nat) : M (value * nat) :=
  match retries with
  | [] => ret (quote_data, api_calls)
  | retry :: rest =>
      let* quote_data := get_batch_quotes batch api_key in
      let api_calls := S api_calls in
      let* usable := lift (has_data quote_data) in
      if usable then ret (quote_data, api_calls)
      else
        let* _ := (if Nat.ltb retry 2
                   then sleep Backoff (2 ^ Z.of_nat retry * 1000000)
                   else ret tt) in
        retry_loop rest batch api_key quote_data api_calls
  end.

(** The momentum expression of lines 160-164. *)
Definition momentum_score (percent_change_24h percent_change_7d volume_24h market_cap : value)
    : outcome float :=
  let! a := Py.mul 0.5 percent_change_24h in
  let! b := Py.mul 0.3 percent_change_7d in
  let! positive := Py.gt_zero market_cap in
  let! ratio :=
    (if positive then
       let! q := Py.truediv volume_24h market_cap in
       Ok (q * 100)%float
     else Ok 0%float) in
  Ok (a + b + 0.2 * ratio)%float.

(** The body of the [try] of one symbol: [Some (momentum_score, price)] when
    [results[symbol]] is assigned, [None] when one of the two [else]
    branches is taken. *)
Definition score_symbol (quote_data : value) (symbol : string)
    : outcome (option (float * value)) :=
  let! data := Py.getitem quote_data "data" in
  let! token_data := Py.get data symbol (VList []) in
  let! nonempty :=
    (if Py.truthy token_data then
       let! n := Py.len token_data in Ok (Nat.ltb 0 n)
     else Ok false) in
  if nonempty then
    let! first := Py.getitem0 token_data in
    let! by_currency := Py.get first "quote" (VDict ∅) in
    let! quote := Py.get by_currency "USD" (VDict ∅) in
    let! price := Py.get quote "price" VNone in
    let! percent_change_24h := Py.get quote "percent_change_24h" (VInt 0) in
    let! percent_change_7d := Py.get quote "percent_change_7d" (VInt 0) in
    let! volume_24h := Py.get quote "volume_24h" (VInt 0) in
    let! market_cap := Py.get quote "market_cap" (VInt 0) in
    let! positive := (if Py.truthy price then Py.gt_zero price else Ok false) in
    if positive then
      let! score :=
        momentum_score percent_change_24h percent_change_7d volume_24h market_cap in
      Ok (Some (score, price))
    else Ok None
  else Ok None.

(** The local variables of [process_all_tickers]. *)
Record locals : Type := Locals {
  results : gmap string (float * value);
  failed_tokens : list string;
  api_calls : nat
}.

(** The f-string of the message printed once [results[symbol]] is assigned:
    [{momentum_score:.2f}] and [{price:,.8f}]. *)
Definition success_message (entry : float * value) : outcome unit :=
  let! _ := Py.format_fixed (VFloat (fst entry)) in
  Py.format_fixed (snd entry).

(** One turn of [for symbol in batch], with its [try]/[except]: the message
    stands inside the [try], after the assignment, so when it raises the
    symbol is scored and appended to the failed list as well. *)
Definition process_symbol (quote_data : value) (st : locals) (symbol : string) : locals :=
  match score_symbol quote_data symbol with
  | Ok (Some entry) =>
      let scored := <[symbol := entry]> (results st) in
      match success_message entry with
      | Ok _ => Locals scored (failed_tokens st) (api_calls st)
      | Raise _ => Locals scored (failed_tokens st ++ [symbol]) (api_calls st)
      end
  | Ok None | Raise _ =>
      Locals (results st) (failed_tokens st ++ [symbol]) (api_calls st)
  end.

(** One turn of the loop over the batches. *)
Definition process_batch (api_key : string) (batch : list string) (st : locals) : M locals :=
  let* fetched := retry_loop (seq 0 3) batch api_key VNone (api_calls st) in
  let quote_data := fst fetched in
  let st := Locals (results st) (failed_tokens st) (snd fetched) in
  let* usable := lift (has_data quote_data) in
  if negb usable then ret st
  else
    let st := foldl (process_symbol quote_data) st batch in
    let* _ := sleep Pacing 100000 in
    ret st.

(** [range(0, stop, step)]. *)
Definition range_step (stop step : nat) : list nat :=
  (fun j => j * step) <$> seq 0 (Nat.div (stop + step - 1) step).

Fixpoint for_batches (starts : list nat) (tickers : list string) (api_key : string)
    (st : locals) : M locals :=
  match starts with
  | [] => ret st
  | i :: rest =>
      let batch := take BATCH_SIZE (drop i tickers) in
      let* st := process_batch api_key batch st in
      for_batches rest tickers api_key st
  end.

(** [process_all_tickers]: the locals at the [return] and the duration in
    microseconds.  Python returns [(results, duration, api_calls)];
    [failed_tokens] is only reported, by [print]. *)
Definition process_all_tickers (tickers : list string) : M (locals * Z) :=
  let* start_time := datetime_now in
  let* api_key := getenv in
  match api_key with
  | None => raise ValueError
  | Some api_key =>
      if String.eqb api_key "" then raise ValueError
      else
        let* _ := CryptoCache.init in
        let tickers : list string := Py.upper <$> tickers in
        let* st :=
          for_batches (range_step (length tickers) BATCH_SIZE) tickers api_key
                      (Locals ∅ [] 0) in
        let* end_time := datetime_now in
        ret (st, (end_time - start_time)%Z)
  end.

End Pipeline.

(** ** main *)

(** [[line.strip() for line in open('current_tickers.txt') if line.strip()]]:
    the ticker list [main] hands to [process_all_tickers]; [lines] are the
    lines of the file as the iteration yields them. *)
Definition read_tickers (lines : list string) : list string :=
  Py.strip <$> List.filter (fun line => Py.truthy (VStr (Py.strip line))) lines.

(** * Vocabulary of the properties *)

Section Vocabulary.
Context `{IsoFormat}.

(** ** Scores *)





(** ** Cache documents *)

(** The time at which [key] was last stamped, when the cache holds a
    timestamp for it that [fromisoformat] reads. *)
Definition stamp (c : value) (key : string) : option Z :=
  match c with
  | VDict d =>
      match d !! "timestamp" with
      | Some (VDict stamps) =>
          match stamps !! key with
          | Some (VStr s) => if String.eqb s "" then None else fromisoformat s
          | _ => None
          end
      | _ => None
      end
  | _ => None
  end.

Definition fresh (c : value) (now : Z) (key : string) : bool :=
  match stamp c key with
  | Some t => Z.ltb (now - t) (CACHE_EXPIRY * 1000000)
  | None => false
  end.

(** What the cache document holds under [data_type] and [key]. *)
Definition entry (c : value) (data_type key : string) : value :=
  match c with
  | VDict d =>
      match d !! data_type with
      | Some (VDict entries) => default VNone (entries !! key)
      | _ => VNone
      end
  | _ => VNone
  end.

(** A cache document as the class builds it: a mapping of mappings. *)
Definition cache_wf (c : value) : Prop :=
  exists d, c = VDict d /\
    forall name x, d !! name = Some x -> exists entries, x = VDict entries.

(** The same world at another time. *)
Definition at_time (w : world) (now : Z) : world :=
  World (env_key w) (disk w) (disk_writable w) now (net w) (cache w) (trace w).

(** The mapping a document holds under [name]; empty when it holds none. *)
Definition entries_of (d : gmap string value) (name : string) : gmap string value :=
  match d !! name with
  | Some (VDict entries) => entries
  | _ => ∅
  end.

(** [d[name][key] = v], with [d[name]] created when missing. *)
Definition put_entry (d : gmap string value) (name key : string) (v : value)
    : gmap string value :=
  <[name := VDict (<[key := v]> (entries_of d name))]> d.

(** The document [set] leaves behind on a mapping of mappings. *)
Definition stored (c : value) (now : Z) (key data_type : string) (v : value) : value :=
  match c with
  | VDict d =>
      VDict (put_entry (put_entry d data_type key v) "timestamp" key (VStr (isoformat now)))
  | _ => c
  end.

(** The same world with another cache document. *)
Definition with_cache (w : world) (c : value) : world :=
  World (env_key w) (disk w) (disk_writable w) (clock w) (net w) c (trace w).

(** The world after [save_cache]. *)
Definition saved (w : world) : world :=
  if disk_writable w
  then World (env_key w) (FileDoc (cache w)) (disk_writable w) (clock w) (net w)
             (cache w) (trace w)
  else w.

(** The document after [if name not in d: d[name] = {}]. *)
Definition ensured (d : gmap string value) (name : string) : gmap string value :=
  if bool_decide (is_Some (d !! name)) then d else <[name := VDict ∅]> d.

(** A document the loader gives up on: making sure of its two mappings
    raises. *)
Definition unusable_document (doc : value) : Prop :=
  exists e,
    (let! cache_data := CryptoCache.ensure_mapping "quotes" doc in
     CryptoCache.ensure_mapping "timestamp" cache_data) = Raise e.

(** There is no document to load: no file, a file that cannot be opened
    or parsed, or an unusable document. *)
Definition load_failure (f : file_state) : Prop :=
  f = FileAbsent \/ f = FileUnreadable \/ f = FileCorrupt
  \/ exists doc, f = FileDoc doc /\ unusable_document doc.

(** A slot of a document that [set] can write an entry into: missing, or a
    mapping. *)
Definition is_mapping (o : option value) : bool :=
  match o with
  | None | Some (VDict _) => true
  | Some _ => false
  end.

(** [set] can store under [data_type] in the document [c]: [c] is a mapping
    whose slots [data_type] and [timestamp] are missing or mappings. *)
Definition settable (c : value) (data_type : string) : bool :=
  match c with
  | VDict d => is_mapping (d !! data_type) && is_mapping (d !! "timestamp")
  | _ => false
  end.




(** ** Triples over [M] *)

(** [triple P m Q E]: from a world in [P], [m] either returns [a] in a world
    in [Q a], or raises [e] in a world in [E e]. *)
Definition triple {A} (P : world -> Prop) (m : M A)
    (Q : A -> world -> Prop) (E : exn -> world -> Prop) : Prop :=
  forall w, P w ->
    match m w with
    | (Ok a, w') => Q a w'
    | (Raise e, w') => E e w'
    end.

(** [m] keeps [I], whether it returns or raises. *)
Definition keeps {A} (I : world -> Prop) (m : M A) : Prop :=
  triple I m (fun _ => I) (fun _ => I).

(** The postcondition of what cannot happen. *)
Definition never {B} : B -> world -> Prop := fun _ _ => False.

(** Predicates on worlds that do not look at the cache or at the disk, and
    predicates that look at nothing else. *)
Definition cache_blind (I : world -> Prop) : Prop :=
  forall w c f, I w ->
    I (World (env_key w) f (disk_writable w) (clock w) (net w) c (trace w)).

Definition cache_only (I : world -> Prop) : Prop :=
  forall w k b t n tr, I w -> I (World k (disk w) b t n (cache w) tr).

(** ** Fetching and retrying *)

(** A payload on which the test [quote_data and 'data' in quote_data] is
    defined. *)
Definition safe_payload (v : value) : Prop := exists b, has_data v = Ok b.

(** Every payload cached under the data type [quotes] is one. *)
Definition quotes_safe (c : value) : Prop :=
  forall key, safe_payload (entry c "quotes" key).

Definition safe_world (w : world) : Prop := quotes_safe (cache w).

(** Events that are neither an entry into [get_batch_quotes], nor a backoff,
    nor the pause after a batch. *)
Definition quiet (e : event) : Prop :=
  match e with
  | EvHttpGet _ | EvSleep Cooldown _ => True
  | _ => False
  end.





(** A reply that [get_batch_quotes] turns into "no data". *)
Definition failing (r : http_reply) : Prop :=
  match r with
  | TransportError => True
  | Reply status body =>
      status = 429%Z
      \/ match body with
         | None => True
         | Some data => api_success status data <> Ok true
         end
  end.

(** The cache key of a batch. *)
Definition batch_key (symbols : list string) : string :=
  Py.join "," (Py.sorted symbols).

(** A cache file whose cached quote payloads are all safe, or no document
    at all. *)
Definition disk_benign (f : file_state) : Prop :=
  match f with
  | FileDoc doc => quotes_safe doc
  | _ => True
  end.

(** ** Symbols and batches *)










(** The success message of the entry cannot be formatted. *)
Definition message_fails (e : float * value) : bool :=
  match success_message e with
  | Ok _ => false
  | Raise _ => true
  end.

(** Does the symbol get a score entry from this payload? *)
Definition scored (quote_data : value) (symbol : string) : bool :=
  match score_symbol quote_data symbol with
  | Ok (Some _) => true
  | _ => false
  end.

(** Is the symbol appended to the failed list?  It is unless it gets a score
    entry whose success message is printed. *)
Definition marks_failed (quote_data : value) (symbol : string) : bool :=
  match score_symbol quote_data symbol with
  | Ok (Some e) => message_fails e
  | _ => true
  end.

(** The symbol is a key of the score mapping, or an element of the failed
    list. *)
Definition in_scores (st : locals) (s : string) : Prop := is_Some (results st !! s).
Definition in_failed (st : locals) (s : string) : Prop := s ∈ failed_tokens st.
Definition recorded (st : locals) (s : string) : Prop := in_scores st s \/ in_failed st s.


(** The slice [tickers[i:i + BATCH_SIZE]]. *)
Definition batch_at (tickers : list string) (i : nat) : list string :=
  take BATCH_SIZE (drop i tickers).



(** ** Cache hits, calls and requests *)

(** The order [sorted] puts strings in. *)
Definition str_le (x y : string) : Prop := String.leb x y = true.

(** [get_batch_quotes] finds the batch in the cache: its key is fresh and
    the payload cached for it is truthy. *)
Definition cache_hit (c : value) (now : Z) (symbols : list string) : bool :=
  fresh c now (batch_key symbols) && Py.truthy (entry c "quotes" (batch_key symbols)).

(** The reply has the status 429. *)
Definition rate_limited (r : http_reply) : bool :=
  match r with
  | Reply status _ => Z.eqb status 429
  | TransportError => false
  end.

(** The world on entry into [get_batch_quotes], once the call is logged. *)
Definition entered (symbols : list string) (w : world) : world :=
  World (env_key w) (disk w) (disk_writable w) (clock w) (net w) (cache w)
        (trace w ++ [EvFetch symbols]).

(** The batches of the loop [for i in range(0, len(tickers), BATCH_SIZE)]. *)
Definition batches (tickers : list string) : list (list string) :=
  batch_at tickers <$> range_step (length tickers) BATCH_SIZE.

Definition is_fetch (e : event) : bool :=
  match e with
  | EvFetch _ => true
  | _ => false
  end.

Definition is_request (e : event) : bool :=
  match e with
  | EvHttpGet _ => true
  | _ => false
  end.

(** How often [get_batch_quotes] was entered, and how many HTTP requests
    were made, in a stretch of the log. *)
Definition calls_made (tl : list event) : nat := length (List.filter is_fetch tl).
Definition requests_made (tl : list event) : nat := length (List.filter is_request tl).

(** The cached quote payloads are safe, in memory and on the file. *)
Definition benign_world (w : world) : Prop := safe_world w /\ disk_benign (disk w).

(** Every price in the score mapping is truthy and above zero. *)
Definition prices_positive (st : locals) : Prop :=
  forall s score price,
    results st !! s = Some (score, price) ->
    Py.truthy price = true /\ Py.gt_zero price = Ok true.

(** ** Ticker lines *)

Definition first_char (s : string) : option ascii :=
  match s with
  | EmptyString => None
  | String c _ => Some c
  end.

Fixpoint last_char (s : string) : option ascii :=
  match s with
  | EmptyString => None
  | String c EmptyString => Some c
  | String _ r => last_char r
  end.

(** The string starts or ends with whitespace. *)
Definition padded (s : string) : bool :=
  match first_char s, last_char s with
  | Some a, Some b => Py.isspace a || Py.isspace b
  | _, _ => false
  end.

End Vocabulary.

(** ** A concrete clock and concrete worlds *)

(** A clock whose timestamps are written as decimal numerals. *)
Definition decimal_isoformat (t : Z) : string :=
  NilZero.string_of_int (Z.to_int t).

Definition decimal_fromisoformat (s : string) : option Z :=
  option_map Z.of_int (NilZero.int_of_string s).

#[local] Instance decimal_clock : IsoFormat.
Proof.
  refine {| isoformat := decimal_isoformat; fromisoformat := decimal_fromisoformat |}.
  - intros t. unfold decimal_fromisoformat, decimal_isoformat.
    rewrite NilZero.isi.
    + simpl. f_equal. apply DecimalZ.of_to.
    + destruct t; simpl; try discriminate.
      intros [= E]. revert E. apply Unsigned.to_uint_nonnil.
    + destruct t; simpl; try discriminate.
      intros [= E]. revert E. apply Unsigned.to_uint_nonnil.
  - intros t. unfold decimal_isoformat.
    destruct (Z.to_int t) as [d|d]; simpl; [|discriminate].
    destruct d; simpl; discriminate.
Defined.

(** A first run: credential set, no cache file, the clock at 0, and the
    given script of replies. *)
Definition cold_world (replies : list http_reply) : world :=
  World (Some "secret") FileAbsent true 0 replies CryptoCache.empty_cache [].

(** A response body of the quotes endpoint that reports success. *)
Definition api_payload (data : gmap string value) : value :=
  VDict {[ "status" := VDict {[ "error_code" := VFloat 0 ]}; "data" := VDict data ]}.

(** The entry of one symbol in such a body. *)
Definition usd_quote (price p24 p7 vol mcap : float) : value :=
  VList [VDict {[ "quote" := VDict {[ "USD" := VDict
    {[ "price" := VFloat price; "percent_change_24h" := VFloat p24;
       "percent_change_7d" := VFloat p7; "volume_24h" := VFloat vol;
       "market_cap" := VFloat mcap ]} ]} ]}].

(** The reference inputs of the scorer, at price 100. *)
Definition reference_quote : value := usd_quote 100 10 5 1000000 10000000.

(** The locals at the [return] of a run, when it returns. *)
Definition final_locals (run : outcome (locals * Z) * world) : locals :=
  match fst run with
  | Ok (st, _) => st
  | Raise _ => Locals ∅ [] 0
  end.

(** A first batch of a hundred symbols whose three requests fail, then a
    batch of one symbol whose request succeeds. *)
Definition failing_then_fetched : outcome (locals * Z) * world :=
  process_all_tickers (replicate 100 "aaa" ++ ["bbb"])
    (cold_world [TransportError; TransportError; TransportError;
                 Reply 200 (Some (api_payload {[ "BBB" := reference_quote ]}))]).


(** The service quotes BTC and ETH and omits XYZ. *)
Definition scenario_world : world :=
  cold_world [Reply 200 (Some (api_payload
    {[ "BTC" := reference_quote; "ETH" := usd_quote 50 1 2 0 0 ]}))].

(** The run on btc, eth, xyz. *)
Definition scenario_run : outcome (locals * Z) * world :=
  process_all_tickers ["btc"; "eth"; "xyz"] scenario_world.

(** A quote whose price is an integer beyond the float range. *)
Definition huge_quote : value :=
  VList [VDict {[ "quote" := VDict {[ "USD" := VDict
    {[ "price" := VInt (10 ^ 400); "percent_change_24h" := VFloat 10;
       "percent_change_7d" := VFloat 5; "volume_24h" := VFloat 1000000;
       "market_cap" := VFloat 10000000 ]} ]} ]}].

(** The service quotes HUGE at that price, and OK at 100. *)
Definition huge_world : world :=
  cold_world [Reply 200 (Some (api_payload
    {[ "HUGE" := huge_quote; "OK" := reference_quote ]}))].

(** The run on huge, ok. *)
Definition huge_run : outcome (locals * Z) * world :=
  process_all_tickers ["huge"; "ok"] huge_world.



(** Two failing replies, then a good one. *)
Definition flaky_world : world :=
  cold_world [TransportError; Reply 500 (Some (VDict ∅));
              Reply 200 (Some (api_payload {[ "BTC" := reference_quote ]}))].

(** No credential in the environment. *)
Definition no_credential_world : world :=
  World None FileAbsent true 0 [TransportError] CryptoCache.empty_cache [].

(** A cache file, not written by the program, that holds a bare number as
    the fresh payload of the batch BTC. *)
Definition foreign_cache_world : world :=
  World (Some "secret")
    (FileDoc (VDict (<["quotes" := VDict (<["BTC" := VFloat 1.5]> ∅)]>
                      (<["timestamp" := VDict (<["BTC" := VStr "0"]> ∅)]> ∅))))
    true 0 [] CryptoCache.empty_cache [].




(** An entry for BTC stamped at time 0, read 4000 seconds later. *)
Definition stale_world : world :=
  World (Some "secret") FileAbsent true 4000000000 []
    (VDict (<["quotes" := VDict (<["BTC" := VStr "old payload"]> ∅)]>
             (<["timestamp" := VDict (<["BTC" := VStr "0"]> ∅)]> ∅)))
    [].

(** The same stale entry in a document that holds a number under [rsi]. *)
Definition numeric_rsi_world : world :=
  World (Some "secret") FileAbsent true 4000000000 []
    (VDict (<["rsi" := VInt 5]>
             (<["quotes" := VDict (<["BTC" := VStr "old payload"]> ∅)]>
               (<["timestamp" := VDict (<["BTC" := VStr "0"]> ∅)]> ∅))))
    [].

(** A new process in the same environment: no cache object yet and an
    empty log. *)
Definition restarted (w : world) : world :=
  World (env_key w) (disk w) (disk_writable w) (clock w) (net w) VNone [].

(** A response body that quotes BTC and ETH. *)
Definition two_quotes : value :=
  api_payload {[ "BTC" := reference_quote; "ETH" := usd_quote 50 1 2 0 0 ]}.

(** The run on btc over the flaky network. *)
Definition flaky_run : outcome (locals * Z) * world :=
  process_all_tickers ["btc"] flaky_world.

(** A later process that finds the cache file [f] at the time [now]. *)
Definition later_process (f : file_state) (now : Z) : world :=
  World (Some "secret") f true now [] VNone [].

(** * Properties *)

(** ** The momentum score *)








(** ** The cache *)

Section CacheFacts.
Context `{IsoFormat}.

Lemma is_valid_run key data_type w :
  CryptoCache.is_valid key data_type w = (Ok (fresh (cache w) (clock w) key), w).
Proof.
  unfold CryptoCache.is_valid, fresh, stamp, try_except, bindM, self_cache, lift, ret,
    datetime_now.
  destruct (cache w) as [| | | | | |d]; try reflexivity.
  cbn. destruct (d !! "timestamp") as [[| | | | | |stamps]|]; try reflexivity.
  cbn. destruct (stamps !! key) as [[| b | n | f | s | l | m]|]; cbn; try reflexivity.
  - destruct b; reflexivity.
  - destruct (negb _); reflexivity.
  - destruct (negb _); reflexivity.
  - destruct (String.eqb s ""); cbn; [reflexivity|].
    destruct (fromisoformat s); reflexivity.
  - destruct (negb _); reflexivity.
  - destruct (negb _); reflexivity.
Qed.

Lemma get_run key data_type w :
  CryptoCache.get key data_type w
  = (Ok (if fresh (cache w) (clock w) key then entry (cache w) data_type key else VNone), w).
Proof.
  unfold CryptoCache.get, try_except, bindM. rewrite is_valid_run.
  destruct (fresh _ _ _) eqn:Hf; [|reflexivity].
  unfold self_cache, lift, entry.
  destruct (cache w) as [| | | | | |d]; try reflexivity.
  cbn. destruct (d !! data_type) as [[| | | | | |entries]|]; reflexivity.
Qed.

Lemma cache_saved w : cache (saved w) = cache w.
Proof. unfold saved. destruct (disk_writable w); reflexivity. Qed.

Lemma save_cache_run w : CryptoCache.save_cache w = (Ok tt, saved w).
Proof.
  unfold CryptoCache.save_cache, try_except, bindM, self_cache, write_disk, saved, ret.
  destruct (disk_writable w); reflexivity.
Qed.

Lemma ensure_run name d w :
  cache w = VDict d ->
  CryptoCache.ensure name w = (Ok tt, with_cache w (VDict (ensured d name))).
Proof.
  intros Hc.
  unfold CryptoCache.ensure, CryptoCache.ensure_mapping, bindM, self_cache, lift,
    put_cache, with_cache, ensured.
  rewrite Hc. cbn. destruct (bool_decide _); reflexivity.
Qed.

Lemma store_run name key v d entries w :
  cache w = VDict d ->
  d !! name = Some (VDict entries) ->
  CryptoCache.store name key v w
  = (Ok tt, with_cache w (VDict (<[name := VDict (<[key := v]> entries)]> d))).
Proof.
  intros Hc Hd.
  unfold CryptoCache.store, bindM, self_cache, lift, put_cache, with_cache.
  rewrite Hc. cbn. rewrite Hd. reflexivity.
Qed.

Lemma ensured_lookup d name :
  (forall x, d !! name = Some x -> exists entries, x = VDict entries) ->
  ensured d name !! name = Some (VDict (entries_of d name)).
Proof.
  intros Hd. unfold ensured, entries_of.
  destruct (d !! name) as [x|] eqn:Hx.
  - destruct (Hd x eq_refl) as [entries ->].
    rewrite bool_decide_eq_true_2 by eauto. exact Hx.
  - rewrite bool_decide_eq_false_2 by (intros [? ?]; discriminate).
    apply lookup_insert_eq.
Qed.

Lemma ensured_put d name key v :
  <[name := VDict (<[key := v]> (entries_of d name))]> (ensured d name)
  = put_entry d name key v.
Proof.
  unfold ensured, put_entry. destruct (bool_decide _); [reflexivity|].
  apply insert_insert_eq.
Qed.

Lemma put_entry_wf d name key v :
  (forall n x, d !! n = Some x -> exists entries, x = VDict entries) ->
  forall n x, put_entry d name key v !! n = Some x -> exists entries, x = VDict entries.
Proof.
  intros Hd n x. unfold put_entry. rewrite lookup_insert. case_decide.
  - intros [= <-]. eauto.
  - apply Hd.
Qed.

Lemma with_cache_twice w c1 c2 : with_cache (with_cache w c1) c2 = with_cache w c2.
Proof. reflexivity. Qed.

Lemma set_run key data_type v w :
  cache_wf (cache w) ->
  CryptoCache.set key data_type v w
  = (Ok tt, saved (with_cache w (stored (cache w) (clock w) key data_type v))).
Proof.
  intros (d & Hc & Hd).
  unfold CryptoCache.set, try_except, bindM.
  rewrite (ensure_run data_type d w Hc).
  rewrite (store_run data_type key v (ensured d data_type) (entries_of d data_type)
             (with_cache w (VDict (ensured d data_type))) eq_refl
             (ensured_lookup d data_type (Hd data_type))).
  rewrite ensured_put, with_cache_twice.
  set (d2 := put_entry d data_type key v).
  rewrite (ensure_run "timestamp" d2 (with_cache w (VDict d2)) eq_refl).
  rewrite with_cache_twice. unfold datetime_now.
  rewrite (store_run "timestamp" key (VStr (isoformat (clock w)))
             (ensured d2 "timestamp") (entries_of d2 "timestamp")
             (with_cache w (VDict (ensured d2 "timestamp"))) eq_refl
             (ensured_lookup d2 "timestamp"
                (put_entry_wf d data_type key v Hd "timestamp"))).
  rewrite ensured_put, with_cache_twice, save_cache_run, Hc. reflexivity.
Qed.

Lemma stored_wf c now key data_type v : cache_wf c -> cache_wf (stored c now key data_type v).
Proof.
  intros (d & -> & Hd). eexists. split; [reflexivity|].
  apply put_entry_wf, put_entry_wf, Hd.
Qed.

Lemma stamp_stored c now key data_type v :
  cache_wf c -> stamp (stored c now key data_type v) key = Some now.
Proof.
  intros (d & -> & Hd). unfold stamp, stored, put_entry.
  rewrite lookup_insert_eq, lookup_insert_eq.
  destruct (String.eqb_spec (isoformat now) "") as [E|_].
  - destruct (isoformat_nonempty now E).
  - apply fromisoformat_isoformat.
Qed.

Lemma fresh_stored c set_at now key data_type v :
  cache_wf c ->
  fresh (stored c set_at key data_type v) now key
  = Z.ltb (now - set_at) (CACHE_EXPIRY * 1000000).
Proof. intros Hwf. unfold fresh. rewrite stamp_stored by exact Hwf. reflexivity. Qed.

Lemma entry_stored_same c now key data_type v :
  cache_wf c -> data_type <> "timestamp" ->
  entry (stored c now key data_type v) data_type key = v.
Proof.
  intros (d & -> & Hd) Hne. unfold entry, stored.
  unfold put_entry at 1. rewrite lookup_insert_ne by congruence.
  unfold put_entry. rewrite lookup_insert_eq, lookup_insert_eq. reflexivity.
Qed.

Lemma entry_stored_other c now key data_type v other k :
  cache_wf c -> other <> data_type -> other <> "timestamp" ->
  entry (stored c now key data_type v) other k = entry c other k.
Proof.
  intros (d & -> & Hd) Hne Hts. unfold entry, stored, put_entry.
  rewrite !lookup_insert_ne by congruence. reflexivity.
Qed.

Lemma empty_cache_wf : cache_wf CryptoCache.empty_cache.
Proof.
  eexists. split; [reflexivity|]. intros name x.
  rewrite lookup_insert. case_decide; [intros [= <-]; eauto|].
  rewrite lookup_insert. case_decide; [intros [= <-]; eauto|].
  rewrite lookup_empty. discriminate.
Qed.

Lemma load_cache_total w : exists c, CryptoCache._load_cache w = (Ok c, w).
Proof.
  unfold CryptoCache._load_cache, bindM, try_except, read_disk, lift, ret, raise.
  destruct (disk w) as [| | |doc]; cbn; eauto.
  destruct (CryptoCache.ensure_mapping "quotes" doc) as [c1|e]; cbn; eauto.
  destruct (CryptoCache.ensure_mapping "timestamp" c1) as [c2|e]; cbn; eauto.
Qed.

Lemma load_cache_failure w :
  load_failure (disk w) -> CryptoCache._load_cache w = (Ok CryptoCache.empty_cache, w).
Proof.
  unfold CryptoCache._load_cache, bindM, try_except, read_disk, lift, ret, raise.
  intros [-> | [-> | [-> | (doc & -> & e & He)]]]; try reflexivity.
  unfold bindE in He.
  destruct (CryptoCache.ensure_mapping "quotes" doc) as [c1|e1]; [|reflexivity].
  rewrite He. reflexivity.
Qed.

Lemma with_cache_same w : with_cache w (cache w) = w.
Proof. by destruct w. Qed.

Lemma load_cache_document d w :
  disk w = FileDoc (VDict d) ->
  CryptoCache._load_cache w
  = (Ok (VDict (ensured (ensured d "quotes") "timestamp")), w).
Proof.
  intros Hd.
  unfold CryptoCache._load_cache, bindM, try_except, read_disk, lift, ret.
  rewrite Hd. unfold CryptoCache.ensure_mapping, Py.contains, bindE.
  unfold ensured.
  destruct (bool_decide (is_Some (d !! "quotes"))); cbn [Py.setitem Py.contains bindE];
    match goal with |- context [bool_decide (is_Some (?m !! "timestamp"))] =>
      destruct (bool_decide (is_Some (m !! "timestamp"))) end; reflexivity.
Qed.





Lemma is_mapping_inv o :
  is_mapping o = true -> forall x, o = Some x -> exists entries, x = VDict entries.
Proof. intros Ho x ->. destruct x; try discriminate. eauto. Qed.

Lemma put_entry_mapping d name key v other :
  is_mapping (d !! other) = true -> is_mapping (put_entry d name key v !! other) = true.
Proof.
  intros Ho. unfold put_entry. rewrite lookup_insert. case_decide; [reflexivity|exact Ho].
Qed.

(** The run of [set] on a document it can store into. *)
Lemma set_run_settable key data_type v w :
  settable (cache w) data_type = true ->
  CryptoCache.set key data_type v w
  = (Ok tt, saved (with_cache w (stored (cache w) (clock w) key data_type v))).
Proof.
  unfold settable. destruct (cache w) as [| | | | | |d] eqn:Hc; try discriminate.
  intros [Ht Hs]%andb_prop.
  unfold CryptoCache.set, try_except, bindM.
  rewrite (ensure_run data_type d w Hc).
  rewrite (store_run data_type key v (ensured d data_type) (entries_of d data_type)
             (with_cache w (VDict (ensured d data_type))) eq_refl
             (ensured_lookup d data_type (is_mapping_inv _ Ht))).
  rewrite ensured_put, with_cache_twice.
  set (d2 := put_entry d data_type key v).
  rewrite (ensure_run "timestamp" d2 (with_cache w (VDict d2)) eq_refl).
  rewrite with_cache_twice. unfold datetime_now.
  rewrite (store_run "timestamp" key (VStr (isoformat (clock w)))
             (ensured d2 "timestamp") (entries_of d2 "timestamp")
             (with_cache w (VDict (ensured d2 "timestamp"))) eq_refl
             (ensured_lookup d2 "timestamp"
                (is_mapping_inv _ (put_entry_mapping d data_type key v "timestamp" Hs)))).
  rewrite ensured_put, with_cache_twice, save_cache_run. reflexivity.
Qed.

Lemma stamp_stored_mapping d now key data_type v :
  stamp (stored (VDict d) now key data_type v) key = Some now.
Proof.
  unfold stamp, stored, put_entry.
  rewrite lookup_insert_eq, lookup_insert_eq.
  destruct (String.eqb_spec (isoformat now) "") as [E|_].
  - destruct (isoformat_nonempty now E).
  - apply fromisoformat_isoformat.
Qed.

Lemma entry_stored_stamp d now key data_type v :
  entry (stored (VDict d) now key data_type v) "timestamp" key = VStr (isoformat now).
Proof.
  unfold entry, stored, put_entry. rewrite lookup_insert_eq, lookup_insert_eq. reflexivity.
Qed.

Lemma entry_stored_apart d now key data_type v other k :
  other <> data_type -> other <> "timestamp" ->
  entry (stored (VDict d) now key data_type v) other k = entry (VDict d) other k.
Proof.
  intros Hne Hts. unfold entry, stored, put_entry.
  rewrite !lookup_insert_ne by congruence. reflexivity.
Qed.

(** Storing into a slot that holds something else than a mapping raises. *)
Lemma store_not_mapping name key v d x w :
  cache w = VDict d -> d !! name = Some x -> is_mapping (Some x) = false ->
  CryptoCache.store name key v w = (Raise TypeError, w).
Proof.
  intros Hc Hd Hx.
  unfold CryptoCache.store, bindM, self_cache, lift.
  rewrite Hc. cbn [Py.getitem]. rewrite Hd.
  destruct x; try reflexivity. discriminate.
Qed.

(** [set] on a cache that is not a mapping changes nothing. *)
Lemma set_not_document key data_type v w :
  match cache w with VDict _ => False | _ => True end ->
  CryptoCache.set key data_type v w = (Ok tt, w).
Proof.
  intros Hc.
  unfold CryptoCache.set, try_except, CryptoCache.ensure, CryptoCache.store,
    CryptoCache.ensure_mapping, bindM, self_cache, lift, put_cache.
  destruct w as [ek dk dw cl nt c tr]. cbn [cache] in *.
  destruct c as [| b | n | f | s | l | d]; try reflexivity.
  - cbn [Py.contains bindE]. destruct (String.index 0 data_type s); reflexivity.
  - cbn [Py.contains bindE]. destruct (existsb _ l); reflexivity.
  - destruct Hc.
Qed.

(** So does [set] when the slot of the data type is taken. *)
Lemma set_slot_taken key data_type v d x w :
  cache w = VDict d -> d !! data_type = Some x -> is_mapping (Some x) = false ->
  CryptoCache.set key data_type v w = (Ok tt, w).
Proof.
  intros Hc Hd Hx.
  unfold CryptoCache.set, try_except. unfold bindM at 1.
  rewrite (ensure_run data_type d w Hc).
  unfold ensured. rewrite bool_decide_eq_true_2 by eauto.
  rewrite <- Hc, with_cache_same. unfold bindM at 1.
  rewrite (store_not_mapping data_type key v d x w Hc Hd Hx). reflexivity.
Qed.

(** When the slot of the stamps is taken, [set] stores the entry and stops
    there: nothing is stamped and the file is not written. *)
Lemma set_stamps_taken key data_type v d x w :
  cache w = VDict d -> is_mapping (d !! data_type) = true ->
  d !! "timestamp" = Some x -> is_mapping (Some x) = false ->
  CryptoCache.set key data_type v w
  = (Ok tt, with_cache w (VDict (put_entry d data_type key v))).
Proof.
  intros Hc Ht Hd Hx.
  assert (Hne : data_type <> "timestamp").
  { intros ->. rewrite Hd in Ht. congruence. }
  unfold CryptoCache.set, try_except. unfold bindM at 1.
  rewrite (ensure_run data_type d w Hc). unfold bindM at 1.
  rewrite (store_run data_type key v (ensured d data_type) (entries_of d data_type)
             (with_cache w (VDict (ensured d data_type))) eq_refl
             (ensured_lookup d data_type (is_mapping_inv _ Ht))).
  rewrite ensured_put, with_cache_twice.
  set (d2 := put_entry d data_type key v).
  assert (Hd2 : d2 !! "timestamp" = Some x).
  { unfold d2, put_entry. rewrite lookup_insert_ne by congruence. exact Hd. }
  unfold bindM at 1.
  rewrite (ensure_run "timestamp" d2 (with_cache w (VDict d2)) eq_refl).
  rewrite with_cache_twice.
  unfold ensured. rewrite bool_decide_eq_true_2 by eauto.
  unfold bindM at 1. unfold datetime_now at 1. unfold bindM at 1.
  rewrite (store_not_mapping "timestamp" key _ d2 x (with_cache w (VDict d2)) eq_refl Hd2 Hx).
  reflexivity.
Qed.

(** When [set] cannot store, the error is swallowed on the way and the key
    keeps its stamp. *)
Lemma set_unsettable key data_type v w :
  settable (cache w) data_type = false ->
  exists c,
    CryptoCache.set key data_type v w = (Ok tt, with_cache w c)
    /\ stamp c key = stamp (cache w) key.
Proof.
  intros Hs. destruct (cache w) as [| b | n | f | s | l | d] eqn:Hc.
  1-6: exists (cache w); rewrite with_cache_same, Hc; split; [|reflexivity];
       apply set_not_document; rewrite Hc; exact I.
  cbn [settable] in Hs.
  destruct (d !! data_type) as [x|] eqn:Hx.
  - destruct (is_mapping (Some x)) eqn:Hm.
    + cbn [andb] in Hs.
      destruct (d !! "timestamp") as [y|] eqn:Hy; [|discriminate].
      exists (VDict (put_entry d data_type key v)). split.
      * apply (set_stamps_taken key data_type v d y w Hc);
          [rewrite Hx; exact Hm | exact Hy | exact Hs].
      * assert (Hne : data_type <> "timestamp").
        { intros ->. rewrite Hy in Hx. injection Hx as ->. congruence. }
        unfold stamp, put_entry. rewrite lookup_insert_ne by congruence.
        rewrite Hy. reflexivity.
    + exists (VDict d). rewrite <- Hc, with_cache_same. split; [|reflexivity].
      apply (set_slot_taken key data_type v d x w Hc Hx Hm).
  - cbn [is_mapping andb] in Hs.
    destruct (d !! "timestamp") as [y|] eqn:Hy; [|discriminate].
    exists (VDict (put_entry d data_type key v)). split.
    + apply (set_stamps_taken key data_type v d y w Hc);
        [rewrite Hx; reflexivity | exact Hy | exact Hs].
    + assert (Hne : data_type <> "timestamp").
      { intros ->. rewrite Hy in Hx. discriminate. }
      unfold stamp, put_entry. rewrite lookup_insert_ne by congruence.
      rewrite Hy. reflexivity.
Qed.



(** C6, as amended: on a cache document of the documented form (a mapping
    of mappings) and for a data type other than [timestamp], the name of the
    timestamp mapping, [get(k, t)] after [set(k, t, v)] returns [v] while
    less than [CACHE_EXPIRY] seconds have passed since the set, and [None]
    from then on although the entry is still stored; on any cache a key
    without a stamp or without an entry is a miss; and [get] never raises,
    whatever the cache holds. *)
Theorem cache_get_after_set (w : world) (key data_type : string) (v : value) :
  cache_wf (cache w) ->
  data_type <> "timestamp" ->
  exists w1,
    CryptoCache.set key data_type v w = (Ok tt, w1)
    /\ entry (cache w1) data_type key = v
    /\ (forall now, (now - clock w < CACHE_EXPIRY * 1000000)%Z ->
          CryptoCache.get key data_type (at_time w1 now) = (Ok v, at_time w1 now))
    /\ (forall now, (CACHE_EXPIRY * 1000000 <= now - clock w)%Z ->
          CryptoCache.get key data_type (at_time w1 now) = (Ok VNone, at_time w1 now))
    /\ (forall w', stamp (cache w') key = None \/ entry (cache w') data_type key = VNone ->
          CryptoCache.get key data_type w' = (Ok VNone, w'))
    /\ (forall w', exists r, CryptoCache.get key data_type w' = (Ok r, w')).
Proof.
  intros Hwf Hne. eexists. split; [apply set_run, Hwf|].
  assert (Hc : forall now,
    cache (at_time (saved (with_cache w (stored (cache w) (clock w) key data_type v))) now)
    = stored (cache w) (clock w) key data_type v).
  { intros now. unfold at_time. cbn [cache]. apply cache_saved. }
  split; [|split; [|split; [|split]]].
  - rewrite cache_saved. apply entry_stored_same; assumption.
  - intros now Hnow. rewrite get_run, Hc. cbn [clock at_time].
    rewrite fresh_stored by exact Hwf.
    rewrite (proj2 (Z.ltb_lt _ _) Hnow).
    rewrite entry_stored_same by assumption. reflexivity.
  - intros now Hnow. rewrite get_run, Hc. cbn [clock at_time].
    rewrite fresh_stored by exact Hwf.
    rewrite (proj2 (Z.ltb_ge _ _) Hnow). reflexivity.
  - intros w' [Hmiss|Hmiss]; rewrite get_run.
    + unfold fresh. rewrite Hmiss. reflexivity.
    + rewrite Hmiss. destruct (fresh _ _ _); reflexivity.
  - intros w'. rewrite get_run. eauto.
Qed.

(** C10, as amended: freshness is a matter of the key alone, and [set]
    never raises.  [is_valid] gives the same answer for every data type.
    When the cache document is a mapping that holds a mapping, or nothing,
    under [t1] and under [timestamp], [set(k, t1, v)] stamps the key with
    the time of the call: for every data type [t2] the key then counts as
    fresh exactly until [CACHE_EXPIRY] seconds have passed, whatever its
    stamp was before, and [get(k, t2)] returns what the document holds under
    [t2] and [k].  For a [t2] other than [t1] and [timestamp] that is the
    entry stored there before the set; under [timestamp] it is the new stamp
    itself.  On any other document the error is swallowed inside [set], the
    stamp of the key is left as it was, and [is_valid] answers as before the
    call: a stale entry stays stale. *)
Theorem cache_freshness_ignores_data_type (w : world) (key t1 t2 : string) (v : value) :
  exists w1,
    CryptoCache.set key t1 v w = (Ok tt, w1)
    /\ (forall w', fst (CryptoCache.is_valid key t1 w') = fst (CryptoCache.is_valid key t2 w'))
    /\ (settable (cache w) t1 = true ->
        (forall now,
           CryptoCache.is_valid key t2 (at_time w1 now)
           = (Ok (Z.ltb (now - clock w) (CACHE_EXPIRY * 1000000)), at_time w1 now))
        /\ (forall now, (now - clock w < CACHE_EXPIRY * 1000000)%Z ->
              CryptoCache.get key t2 (at_time w1 now)
              = (Ok (entry (cache w1) t2 key), at_time w1 now))
        /\ (t1 <> t2 -> t2 <> "timestamp" ->
            entry (cache w1) t2 key = entry (cache w) t2 key)
        /\ (t2 = "timestamp" -> entry (cache w1) t2 key = VStr (isoformat (clock w))))
    /\ (settable (cache w) t1 = false ->
        forall now,
          CryptoCache.is_valid key t2 (at_time w1 now)
          = (Ok (fresh (cache w) now key), at_time w1 now)).
Proof.
  destruct (settable (cache w) t1) eqn:Hs.
  - eexists. split; [apply set_run_settable, Hs|].
    split; [intros w'; rewrite !is_valid_run; reflexivity|].
    split; [|discriminate]. intros _.
    assert (Hc : forall now,
      cache (at_time (saved (with_cache w (stored (cache w) (clock w) key t1 v))) now)
      = stored (cache w) (clock w) key t1 v).
    { intros now. unfold at_time. cbn [cache]. apply cache_saved. }
    unfold settable in Hs. destruct (cache w) as [| | | | | |d] eqn:Hd; try discriminate.
    split; [|split; [|split]].
    + intros now. rewrite is_valid_run, Hc. cbn [clock at_time].
      unfold fresh. rewrite stamp_stored_mapping. reflexivity.
    + intros now Hnow. rewrite get_run, Hc. cbn [clock at_time].
      unfold fresh. rewrite stamp_stored_mapping.
      rewrite (proj2 (Z.ltb_lt _ _) Hnow), cache_saved. reflexivity.
    + intros Hne Hts. rewrite cache_saved.
      apply entry_stored_apart; [congruence | exact Hts].
    + intros ->. rewrite cache_saved. apply entry_stored_stamp.
  - destruct (set_unsettable key t1 v w Hs) as (c & Hrun & Hstamp).
    eexists. split; [exact Hrun|].
    split; [intros w'; rewrite !is_valid_run; reflexivity|].
    split; [discriminate|]. intros _ now.
    rewrite is_valid_run. cbn [at_time with_cache cache clock].
    unfold fresh. rewrite Hstamp. reflexivity.
Qed.


End CacheFacts.

(** ** A program logic for [M] *)

Lemma triple_ret {A} (P : world -> Prop) (a : A) Q E :
  (forall w, P w -> Q a w) -> triple P (ret a) Q E.
Proof. intros HQ w Hw. exact (HQ w Hw). Qed.

Lemma triple_raise {A} (P : world -> Prop) e (Q : A -> world -> Prop) E :
  (forall w, P w -> E e w) -> triple P (raise e) Q E.
Proof. intros HE w Hw. exact (HE w Hw). Qed.

Lemma triple_lift {A} (P : world -> Prop) (o : outcome A) Q E :
  (forall w, P w -> match o with Ok a => Q a w | Raise e => E e w end) ->
  triple P (lift o) Q E.
Proof. intros HQ w Hw. unfold lift. specialize (HQ w Hw). destruct o; exact HQ. Qed.

Lemma triple_bind {A B} (P : world -> Prop) (m : M A) (k : A -> M B) R Q E :
  triple P m R E ->
  (forall a, triple (R a) (k a) Q E) ->
  triple P (bindM m k) Q E.
Proof.
  intros Hm Hk w Hw. unfold bindM. specialize (Hm w Hw).
  destruct (m w) as [[a|e] w1]; [|exact Hm].
  exact (Hk a w1 Hm).
Qed.

Lemma triple_try {A} (P : world -> Prop) (m : M A) (h : exn -> M A) Q E' E :
  triple P m Q E' ->
  (forall e, triple (E' e) (h e) Q E) ->
  triple P (try_except m h) Q E.
Proof.
  intros Hm Hh w Hw. unfold try_except. specialize (Hm w Hw).
  destruct (m w) as [[a|e] w1]; [exact Hm|].
  exact (Hh e w1 Hm).
Qed.

Lemma triple_weaken {A} (P P' : world -> Prop) (m : M A) (Q Q' : A -> world -> Prop)
    (E E' : exn -> world -> Prop) :
  triple P m Q E ->
  (forall w, P' w -> P w) ->
  (forall a w, Q a w -> Q' a w) ->
  (forall e w, E e w -> E' e w) ->
  triple P' m Q' E'.
Proof.
  intros Hm HP HQ HE w Hw. specialize (Hm w (HP w Hw)).
  destruct (m w) as [[a|e] w1]; auto.
Qed.

Lemma keeps_bind {A B} (I : world -> Prop) (m : M A) (k : A -> M B) :
  keeps I m -> (forall a, keeps I (k a)) -> keeps I (bindM m k).
Proof. intros Hm Hk. exact (triple_bind I m k _ _ _ Hm Hk). Qed.

Lemma keeps_ret {A} (I : world -> Prop) (a : A) : keeps I (ret a).
Proof. apply triple_ret. auto. Qed.

Lemma keeps_raise {A} (I : world -> Prop) e : keeps I (raise (A := A) e).
Proof. apply triple_raise. auto. Qed.

Lemma keeps_lift {A} (I : world -> Prop) (o : outcome A) : keeps I (lift o).
Proof. apply triple_lift. intros w Hw. destruct o; exact Hw. Qed.

(** A handler that returns absorbs every exception of a block that keeps
    [I]. *)
Lemma try_absorbs {A} (I : world -> Prop) (m : M A) (a : A) :
  keeps I m -> triple I (try_except m (fun _ => ret a)) (fun _ => I) never.
Proof.
  intros Hm. apply (triple_try I m _ _ (fun _ => I) never Hm).
  intros e. apply triple_ret. auto.
Qed.

Lemma keeps_self_cache I : keeps I self_cache.
Proof. intros w Hw. exact Hw. Qed.

Lemma keeps_datetime_now I : keeps I datetime_now.
Proof. intros w Hw. exact Hw. Qed.

Lemma keeps_put_cache I c : cache_blind I -> keeps I (put_cache c).
Proof. intros HI w Hw. exact (HI w c (disk w) Hw). Qed.

Lemma keeps_write_disk I doc : cache_blind I -> keeps I (write_disk doc).
Proof.
  intros HI w Hw. unfold write_disk.
  destruct (disk_writable w) eqn:Hd; [|exact Hw].
  rewrite <- Hd. exact (HI w (cache w) (FileDoc doc) Hw).
Qed.

Lemma keeps_emit I e : cache_only I -> keeps I (emit e).
Proof. intros HI w Hw. exact (HI w _ _ _ _ _ Hw). Qed.

Lemma keeps_sleep I site us : cache_only I -> keeps I (sleep site us).
Proof. intros HI w Hw. exact (HI w _ _ _ _ _ Hw). Qed.

Lemma keeps_http_get I symbols : cache_only I -> keeps I (http_get symbols).
Proof.
  intros HI w Hw. unfold http_get.
  destruct (net w); exact (HI w _ _ _ _ _ Hw).
Qed.

(** ** The fetcher *)

Section FetcherFacts.
Context `{IsoFormat}.

Lemma keeps_ensure I name : cache_blind I -> keeps I (CryptoCache.ensure name).
Proof.
  intros HI. unfold CryptoCache.ensure.
  apply keeps_bind; [apply keeps_self_cache|]. intros c.
  apply keeps_bind; [apply keeps_lift|]. intros c'.
  apply keeps_put_cache, HI.
Qed.

Lemma keeps_store I name key v : cache_blind I -> keeps I (CryptoCache.store name key v).
Proof.
  intros HI. unfold CryptoCache.store.
  apply keeps_bind; [apply keeps_self_cache|]. intros c.
  apply keeps_bind; [apply keeps_lift|]. intros entries.
  apply keeps_bind; [apply keeps_lift|]. intros entries'.
  apply keeps_bind; [apply keeps_lift|]. intros c'.
  apply keeps_put_cache, HI.
Qed.

Lemma keeps_save_cache I : cache_blind I -> keeps I CryptoCache.save_cache.
Proof.
  intros HI w Hw. rewrite save_cache_run. unfold saved.
  destruct (disk_writable w) eqn:Hd; [|exact Hw].
  pose proof (HI w (cache w) (FileDoc (cache w)) Hw) as Hw'.
  rewrite Hd in Hw'. exact Hw'.
Qed.

(** [set] never raises, and touches nothing but the cache and the disk. *)
Lemma set_blind I key data_type v :
  cache_blind I -> triple I (CryptoCache.set key data_type v) (fun _ => I) never.
Proof.
  intros HI. unfold CryptoCache.set. apply try_absorbs.
  apply keeps_bind; [apply keeps_ensure, HI|]. intros _.
  apply keeps_bind; [apply keeps_store, HI|]. intros _.
  apply keeps_bind; [apply keeps_ensure, HI|]. intros _.
  apply keeps_bind; [apply keeps_datetime_now|]. intros now.
  apply keeps_bind; [apply keeps_store, HI|]. intros _.
  apply keeps_save_cache, HI.
Qed.

Lemma safe_world_cache_only : cache_only safe_world.
Proof. intros w k b t n tr Hw. exact Hw. Qed.

Lemma safe_none : safe_payload VNone.
Proof. exists false. reflexivity. Qed.

Lemma safe_dict d : safe_payload (VDict d).
Proof. unfold safe_payload, has_data. cbn. destruct (negb _); eauto. Qed.

Lemma ensure_mapping_safe name c c' :
  CryptoCache.ensure_mapping name c = Ok c' -> quotes_safe c -> quotes_safe c'.
Proof.
  unfold CryptoCache.ensure_mapping, bindE. intros Hc' Hc.
  destruct (Py.contains name c) as [[|]|e] eqn:Hin; try discriminate.
  - injection Hc' as <-. exact Hc.
  - destruct c as [| | | | | |d]; try discriminate. injection Hc' as <-.
    intros key. unfold entry. rewrite lookup_insert. case_decide as Hn.
    + apply safe_none.
    + exact (Hc key).
Qed.

Lemma keeps_safe_ensure name : keeps safe_world (CryptoCache.ensure name).
Proof.
  intros w Hw. unfold CryptoCache.ensure, bindM, self_cache, lift.
  destruct (CryptoCache.ensure_mapping name (cache w)) as [c'|e] eqn:Hc; [|exact Hw].
  exact (ensure_mapping_safe name _ _ Hc Hw).
Qed.

Lemma keeps_safe_store name key v :
  name <> "quotes" \/ safe_payload v ->
  keeps safe_world (CryptoCache.store name key v).
Proof.
  intros Hv w Hw. unfold CryptoCache.store, bindM, self_cache, lift.
  destruct (cache w) as [| | | | | |d] eqn:Hc; try exact Hw. cbn.
  destruct (d !! name) as [[| | | | | |entries]|] eqn:Hd; try exact Hw. cbn.
  unfold safe_world. cbn. intros k. unfold entry.
  rewrite lookup_insert. case_decide as Hn.
  - subst name. destruct Hv as [Hv|Hv]; [congruence|].
    rewrite lookup_insert. case_decide; [exact Hv|].
    specialize (Hw k). unfold safe_world, entry in Hw. rewrite Hc, Hd in Hw. exact Hw.
  - specialize (Hw k). unfold safe_world, entry in Hw. rewrite Hc in Hw. exact Hw.
Qed.

Lemma keeps_safe_save_cache : keeps safe_world CryptoCache.save_cache.
Proof. intros w Hw. rewrite save_cache_run. unfold safe_world. rewrite cache_saved. exact Hw. Qed.

Lemma set_safe key v :
  safe_payload v ->
  triple safe_world (CryptoCache.set key "quotes" v) (fun _ => safe_world) never.
Proof.
  intros Hv. unfold CryptoCache.set. apply try_absorbs.
  apply keeps_bind; [apply keeps_safe_ensure|]. intros _.
  apply keeps_bind; [apply keeps_safe_store; right; exact Hv|]. intros _.
  apply keeps_bind; [apply keeps_safe_ensure|]. intros _.
  apply keeps_bind; [apply keeps_datetime_now|]. intros now.
  apply keeps_bind; [apply keeps_safe_store; left; discriminate|]. intros _.
  apply keeps_safe_save_cache.
Qed.

(** The shape of the world [set] leaves. *)
Lemma set_frame key data_type v w :
  exists c f,
    CryptoCache.set key data_type v w
    = (Ok tt, World (env_key w) f (disk_writable w) (clock w) (net w) c (trace w)).
Proof.
  pose (I := fun w' : world => exists c f,
    w' = World (env_key w) f (disk_writable w) (clock w) (net w) c (trace w)).
  assert (HI : cache_blind I).
  { intros w' c f (c0 & f0 & ->). exists c, f. reflexivity. }
  assert (Hw : I w) by (exists (cache w), (disk w); destruct w; reflexivity).
  pose proof (set_blind I key data_type v HI w Hw) as Hset.
  destruct (CryptoCache.set key data_type v w) as [[[]|e] w']; [|destruct Hset].
  destruct Hset as (c & f & ->). eauto.
Qed.

(** What one call of [get_batch_quotes] does: it never raises, logs its
    entry and then only quiet events, keeps the cached payloads safe and
    returns a safe payload. *)
Lemma get_batch_quotes_spec symbols api_key w :
  exists v w' tl,
    get_batch_quotes symbols api_key w = (Ok v, w')
    /\ trace w' = trace w ++ EvFetch symbols :: tl
    /\ Forall quiet tl
    /\ env_key w' = env_key w
    /\ (safe_world w -> safe_world w' /\ safe_payload v).
Proof.
  unfold get_batch_quotes, bindM, emit. rewrite get_run. cbn [cache clock].
  set (cache_key := Py.join "," (Py.sorted symbols)).
  set (cached := if fresh (cache w) (clock w) cache_key
                 then entry (cache w) "quotes" cache_key else VNone).
  assert (Hcached : safe_world w -> safe_payload cached).
  { intros Hw. unfold cached. destruct (fresh _ _ _); [apply Hw | apply safe_none]. }
  destruct (Py.truthy cached).
  { eexists _, _, []. repeat split; auto. }
  unfold try_except, bindM, http_get, raise, ret, sleep, lift. cbn [net trace].
  set (w2 := World _ _ _ _ (tail (net w)) _ _).
  assert (Hquiet : Forall quiet [EvHttpGet symbols]) by (repeat constructor).
  assert (Hnone : exists v w' tl, (Ok VNone, w2) = (Ok v, w')
      /\ trace w' = trace w ++ EvFetch symbols :: tl /\ Forall quiet tl
      /\ env_key w' = env_key w
      /\ (safe_world w -> safe_world w' /\ safe_payload v)).
  { eexists _, _, [EvHttpGet symbols]. repeat split; auto using safe_none.
    unfold w2. cbn. rewrite <- app_assoc. reflexivity. }
  destruct (net w) as [|[|status body] rest]; try exact Hnone.
  destruct (Z.eqb status 429).
  { eexists _, _, [EvHttpGet symbols; EvSleep Cooldown 10000000].
    repeat split; auto using safe_none.
    - unfold w2. cbn. rewrite <- !app_assoc. reflexivity.
    - repeat constructor. }
  destruct body as [data|]; [|exact Hnone].
  destruct (api_success status data) as [[|]|e] eqn:Hok; try exact Hnone.
  - destruct (set_frame cache_key "quotes" data w2) as (c & f & Hset).
    assert (Hdata : safe_payload data).
    { unfold api_success in Hok. destruct (Z.eqb status 200); [|discriminate].
      destruct data; try discriminate. apply safe_dict. }
    pose proof (set_safe cache_key data Hdata w2) as Hsafe.
    rewrite Hset in *.
    eexists _, _, [EvHttpGet symbols]. repeat split; auto.
    cbn. rewrite <- app_assoc. reflexivity.
  - destruct (api_error_message data); exact Hnone.
Qed.

End FetcherFacts.

(** ** The retry loop *)

Section RetryFacts.
Context `{IsoFormat}.












End RetryFacts.

(** ** The orchestrator never raises on safe cached payloads *)

Section TotalityFacts.
Context `{IsoFormat}.

Lemma retry_loop_safe retries batch api_key quote_data api_calls :
  safe_payload quote_data ->
  triple safe_world (retry_loop retries batch api_key quote_data api_calls)
    (fun r w => safe_world w /\ safe_payload (fst r)) never.
Proof.
  revert quote_data api_calls.
  induction retries as [|retry rest IH]; intros quote_data api_calls Hq w Hw.
  { cbn. auto. }
  cbn [retry_loop]. unfold bindM.
  destruct (get_batch_quotes_spec batch api_key w)
    as (v & w1 & tl & E & _ & _ & _ & Hsafe).
  rewrite E. destruct (Hsafe Hw) as [Hw1 [b Hb]].
  unfold lift at 1. rewrite Hb. destruct b.
  { cbn. split; [exact Hw1 | exists true; exact Hb]. }
  destruct (Nat.ltb retry 2).
  - unfold sleep. cbv beta iota.
    apply (IH v (S api_calls)); [exists false; exact Hb|]. exact Hw1.
  - unfold ret at 1. cbv beta iota.
    apply (IH v (S api_calls)); [exists false; exact Hb | exact Hw1].
Qed.

Lemma process_batch_safe api_key batch st :
  triple safe_world (process_batch api_key batch st) (fun _ => safe_world) never.
Proof.
  intros w Hw. unfold process_batch, bindM.
  pose proof (retry_loop_safe (seq 0 3) batch api_key VNone (api_calls st) safe_none w Hw)
    as Hloop.
  destruct (retry_loop (seq 0 3) batch api_key VNone (api_calls st) w)
    as [[[q n]|e] w1]; [|destruct Hloop].
  destruct Hloop as [Hw1 [b Hb]]. cbn [fst snd] in *. unfold lift. rewrite Hb.
  destruct b; cbn; exact Hw1.
Qed.

Lemma for_batches_safe starts tickers api_key st :
  triple safe_world (for_batches starts tickers api_key st) (fun _ => safe_world) never.
Proof.
  revert st. induction starts as [|i rest IH]; intros st.
  - apply triple_ret. auto.
  - cbn [for_batches]. eapply triple_bind; [apply process_batch_safe|].
    intros st'. apply IH.
Qed.

Lemma empty_cache_safe : quotes_safe CryptoCache.empty_cache.
Proof. intros key. apply safe_none. Qed.

Lemma init_safe :
  triple (fun w => disk_benign (disk w)) CryptoCache.init (fun _ => safe_world) never.
Proof.
  intros w Hw.
  unfold CryptoCache.init, CryptoCache._load_cache, bindM, try_except, read_disk,
    lift, ret, raise, put_cache, safe_world.
  destruct (disk w) as [| | |doc]; cbn; try apply empty_cache_safe.
  destruct (CryptoCache.ensure_mapping "quotes" doc) as [c1|e] eqn:E1; cbn;
    [|apply empty_cache_safe].
  destruct (CryptoCache.ensure_mapping "timestamp" c1) as [c2|e] eqn:E2; cbn;
    [|apply empty_cache_safe].
  exact (ensure_mapping_safe _ _ _ E2 (ensure_mapping_safe _ _ _ E1 Hw)).
Qed.

Lemma process_all_total tickers w api_key :
  env_key w = Some api_key -> api_key <> "" ->
  disk_benign (disk w) ->
  exists r w', process_all_tickers tickers w = (Ok r, w').
Proof.
  intros Hkey Hne Hdisk.
  unfold process_all_tickers, bindM, datetime_now, getenv. rewrite Hkey.
  destruct (String.eqb_spec api_key "") as [->|_]; [congruence|].
  pose proof (init_safe w Hdisk) as Hinit.
  destruct (CryptoCache.init w) as [[[]|e] w1]; [|destruct Hinit].
  set (T := Py.upper <$> tickers).
  pose proof (for_batches_safe (range_step (length T) BATCH_SIZE) T api_key
                (Locals ∅ [] 0) w1 Hinit) as Hloop.
  destruct (for_batches _ T api_key _ w1) as [[st|e] w2]; [|destruct Hloop].
  cbn. eauto.
Qed.

Lemma process_all_no_credential tickers w :
  env_key w = None \/ env_key w = Some "" ->
  process_all_tickers tickers w = (Raise ValueError, w).
Proof.
  intros [Hkey|Hkey]; unfold process_all_tickers, bindM, datetime_now, getenv, raise;
    rewrite Hkey; reflexivity.
Qed.

(** Without a credential (unset or empty) the run raises [ValueError] at
    once, leaving the world (network script, trace, cache file) as it was;
    with a credential, and a cache file whose cached quote payloads are safe
    for the test ['data' in quote_data], the run returns its result whatever
    the network replies. *)
Lemma credential_decides_raise (tickers : list string) (w : world) :
  (env_key w = None \/ env_key w = Some "" ->
   process_all_tickers tickers w = (Raise ValueError, w))
  /\ (disk_benign (disk w) ->
      forall api_key, env_key w = Some api_key -> api_key <> "" ->
      exists r w', process_all_tickers tickers w = (Ok r, w')).
Proof.
  split.
  - apply process_all_no_credential.
  - intros Hdisk api_key Hkey Hne.
    exact (process_all_total tickers w api_key Hkey Hne Hdisk).
Qed.

End TotalityFacts.

(** ** One symbol of a fetched batch *)

Section SymbolFacts.








(** The symbol loop: the failed list grows by the symbols that are marked
    failed, in order; the counter is not touched. *)
Lemma symbol_loop_failed quote_data batch st :
  failed_tokens (foldl (process_symbol quote_data) st batch)
  = failed_tokens st ++ List.filter (marks_failed quote_data) batch.
Proof.
  revert st. induction batch as [|s batch IH]; intros st; cbn [foldl List.filter].
  - rewrite app_nil_r. reflexivity.
  - rewrite IH. unfold marks_failed, process_symbol, message_fails.
    destruct (score_symbol quote_data s) as [[e|]|x];
      [destruct (success_message e)| |]; cbn [failed_tokens];
      rewrite <- ?app_assoc; reflexivity.
Qed.

Lemma symbol_loop_api_calls quote_data batch st :
  api_calls (foldl (process_symbol quote_data) st batch) = api_calls st.
Proof.
  revert st. induction batch as [|s batch IH]; intros st; cbn [foldl]; [reflexivity|].
  rewrite IH. unfold process_symbol.
  destruct (score_symbol quote_data s) as [[e|]|x];
    [destruct (success_message e)| |]; reflexivity.
Qed.

Lemma process_symbol_results quote_data st x s :
  results (process_symbol quote_data st x) !! s
  = match score_symbol quote_data x with
    | Ok (Some e) => if decide (s = x) then Some e else results st !! s
    | _ => results st !! s
    end.
Proof.
  unfold process_symbol.
  destruct (score_symbol quote_data x) as [[e|]|]; cbn [results]; try reflexivity.
  destruct (success_message e); cbn [results];
    (destruct (decide (s = x)) as [->|Hne];
      [apply lookup_insert_eq | apply lookup_insert_ne; congruence]).
Qed.

(** The symbol loop: a symbol of the batch ends with the entry its own
    quote gives it; any other entry of the mapping is left as it was. *)
Lemma symbol_loop_results quote_data batch st s :
  results (foldl (process_symbol quote_data) st batch) !! s
  = match score_symbol quote_data s with
    | Ok (Some e) => if bool_decide (s ∈ batch) then Some e else results st !! s
    | _ => results st !! s
    end.
Proof.
  revert st. induction batch as [|x batch IH]; intros st; cbn [foldl].
  - destruct (score_symbol quote_data s) as [[e|]|]; reflexivity.
  - rewrite IH, process_symbol_results.
    destruct (decide (s = x)) as [->|Hne].
    + rewrite (bool_decide_eq_true_2 (x ∈ x :: batch)) by left.
      destruct (score_symbol quote_data x) as [[e|]|]; try reflexivity.
      destruct (bool_decide (x ∈ batch)); reflexivity.
    + rewrite (bool_decide_ext (s ∈ x :: batch) (s ∈ batch))
        by (rewrite elem_of_cons; tauto).
      destruct (score_symbol quote_data s) as [[e|]|]; try reflexivity;
        destruct (score_symbol quote_data x) as [[ex|]|]; reflexivity.
Qed.


End SymbolFacts.

(** ** The run over all batches *)

Section PartitionFacts.
Context `{IsoFormat}.

Lemma process_batch_run api_key batch st w :
  process_batch api_key batch st w
  = match retry_loop (seq 0 3) batch api_key VNone (api_calls st) w with
    | (Ok (q, n), w1) =>
        match has_data q with
        | Ok true =>
            (Ok (foldl (process_symbol q) (Locals (results st) (failed_tokens st) n) batch),
             snd (sleep Pacing 100000 w1))
        | Ok false => (Ok (Locals (results st) (failed_tokens st) n), w1)
        | Raise e => (Raise e, w1)
        end
    | (Raise e, w1) => (Raise e, w1)
    end.
Proof.
  unfold process_batch, bindM.
  destruct (retry_loop _ _ _ _ _ w) as [[[q n]|e] w1]; [|reflexivity].
  cbn [fst snd]. unfold lift. destruct (has_data q) as [[|]|e]; reflexivity.
Qed.

(** A batch whose three attempts give no usable payload: the score mapping
    and the failed list are left as they were, and the world is the one the
    last attempt left. *)
Lemma process_batch_unfetched api_key batch st w q n w1 :
  retry_loop (seq 0 3) batch api_key VNone (api_calls st) w = (Ok (q, n), w1) ->
  has_data q = Ok false ->
  process_batch api_key batch st w
  = (Ok (Locals (results st) (failed_tokens st) n), w1).
Proof. intros Hloop Hq. rewrite process_batch_run, Hloop, Hq. reflexivity. Qed.

(** A fetched batch: the symbol loop, then the pause of 100ms. *)
Lemma process_batch_fetched api_key batch st w q n w1 :
  retry_loop (seq 0 3) batch api_key VNone (api_calls st) w = (Ok (q, n), w1) ->
  has_data q = Ok true ->
  process_batch api_key batch st w
  = (Ok (foldl (process_symbol q) (Locals (results st) (failed_tokens st) n) batch),
     World (env_key w1) (disk w1) (disk_writable w1) (clock w1 + 100000) (net w1)
           (cache w1) (trace w1 ++ [EvSleep Pacing 100000])).
Proof. intros Hloop Hq. rewrite process_batch_run, Hloop, Hq. reflexivity. Qed.

Lemma symbol_loop_in_scores quote_data batch st s :
  in_scores (foldl (process_symbol quote_data) st batch) s
  <-> in_scores st s \/ (s ∈ batch /\ scored quote_data s = true).
Proof.
  unfold in_scores, scored. rewrite symbol_loop_results.
  destruct (score_symbol quote_data s) as [[e|]|].
  - destruct (bool_decide_reflect (s ∈ batch)) as [Hin|Hout].
    + split; [auto | intros _; eauto].
    + split; [auto | intros [Hs|[Hin _]]; [exact Hs | contradiction]].
  - split; [auto | intros [Hs|[_ Hf]]; [exact Hs | discriminate]].
  - split; [auto | intros [Hs|[_ Hf]]; [exact Hs | discriminate]].
Qed.

Lemma symbol_loop_in_failed quote_data batch st s :
  in_failed (foldl (process_symbol quote_data) st batch) s
  <-> in_failed st s \/ (s ∈ batch /\ marks_failed quote_data s = true).
Proof.
  unfold in_failed. rewrite symbol_loop_failed, elem_of_app.
  split; (intros [Hs|Hs]; [left; exact Hs | right]).
  - apply list_elem_of_In, List.filter_In in Hs. destruct Hs as [Hin Hb].
    split; [apply list_elem_of_In, Hin | exact Hb].
  - destruct Hs as [Hin Hb]. apply list_elem_of_In, List.filter_In.
    split; [apply list_elem_of_In, Hin | exact Hb].
Qed.


Lemma process_batch_ok api_key batch st w st1 w1 :
  process_batch api_key batch st w = (Ok st1, w1) ->
  exists q n w2,
    retry_loop (seq 0 3) batch api_key VNone (api_calls st) w = (Ok (q, n), w2)
    /\ ((has_data q = Ok false /\ st1 = Locals (results st) (failed_tokens st) n)
        \/ (has_data q = Ok true
            /\ st1 = foldl (process_symbol q)
                       (Locals (results st) (failed_tokens st) n) batch)).
Proof.
  rewrite process_batch_run.
  destruct (retry_loop _ _ _ _ _ w) as [[[q n]|e] w2]; [|discriminate].
  destruct (has_data q) as [[|]|e] eqn:Hq; [| |discriminate];
    intros [= <- <-]; exists q, n, w2; auto.
Qed.


Lemma process_batch_within api_key batch st w st1 w1 s :
  process_batch api_key batch st w = (Ok st1, w1) ->
  recorded st1 s -> recorded st s \/ s ∈ batch.
Proof.
  intros Hrun. destruct (process_batch_ok _ _ _ _ _ _ Hrun)
    as (q & n & w2 & _ & [[_ ->] | [_ ->]]).
  - auto.
  - unfold recorded. rewrite symbol_loop_in_scores, symbol_loop_in_failed.
    tauto.
Qed.





Lemma for_batches_cons i rest tickers api_key st w stf wf :
  for_batches (i :: rest) tickers api_key st w = (Ok stf, wf) ->
  exists st1 w1,
    process_batch api_key (batch_at tickers i) st w = (Ok st1, w1)
    /\ for_batches rest tickers api_key st1 w1 = (Ok stf, wf).
Proof.
  cbn [for_batches]. unfold bindM, batch_at.
  destruct (process_batch api_key _ st w) as [[st1|e] w1]; [eauto | discriminate].
Qed.


Lemma for_batches_within starts tickers api_key st w stf wf s :
  for_batches starts tickers api_key st w = (Ok stf, wf) ->
  recorded stf s -> recorded st s \/ exists i, i ∈ starts /\ s ∈ batch_at tickers i.
Proof.
  revert st w. induction starts as [|i rest IH]; intros st w Hrun Hs.
  - injection Hrun as <- <-. auto.
  - destruct (for_batches_cons _ _ _ _ _ _ _ _ Hrun) as (st1 & w1 & Hb & Hrest).
    destruct (IH _ _ Hrest Hs) as [Hs1 | (j & Hj & Hin)].
    + destruct (process_batch_within _ _ _ _ _ _ s Hb Hs1) as [Hs0|Hin]; [auto|].
      right. exists i. split; [left | exact Hin].
    + right. exists j. split; [right; exact Hj | exact Hin].
Qed.


(** Consecutive slices of [step] elements put the list back together. *)
Lemma slices_concat {A} (step k : nat) (l : list A) :
  length l <= k * step ->
  concat ((fun j => take step (drop (j * step) l)) <$> seq 0 k) = l.
Proof.
  revert l. induction k as [|k IH]; intros l Hlen.
  - destruct l; [reflexivity | cbn in Hlen; lia].
  - cbn [seq]. rewrite <- fmap_S_seq, fmap_cons, <- list_fmap_compose.
    cbn [concat]. rewrite Nat.mul_0_l, drop_0.
    transitivity (take step l ++ drop step l); [|apply take_drop]. f_equal.
    etransitivity; [|apply (IH (drop step l)); rewrite length_drop; lia].
    f_equal. apply list_fmap_ext. intros _ j _. cbn.
    rewrite drop_drop. do 2 f_equal; lia.
Qed.

Lemma batches_concat (tickers : list string) :
  concat (batch_at tickers <$> range_step (length tickers) BATCH_SIZE) = tickers.
Proof.
  unfold range_step. rewrite <- list_fmap_compose.
  apply (slices_concat BATCH_SIZE). unfold BATCH_SIZE.
  pose proof (Nat.div_mod_eq (length tickers + 100 - 1) 100) as Hd.
  pose proof (Nat.mod_upper_bound (length tickers + 100 - 1) 100) as Hm.
  lia.
Qed.

Lemma batch_at_subseteq tickers i s : s ∈ batch_at tickers i -> s ∈ tickers.
Proof.
  unfold batch_at. intros Hs.
  apply (subseteq_drop i tickers), (subseteq_take BATCH_SIZE _), Hs.
Qed.

(** The loop a run of [process_all_tickers] that returns has gone through. *)
Lemma process_all_loop tickers w api_key stf dur wf :
  env_key w = Some api_key ->
  process_all_tickers tickers w = (Ok (stf, dur), wf) ->
  for_batches (range_step (length (Py.upper <$> tickers)) BATCH_SIZE)
    (Py.upper <$> tickers) api_key (Locals ∅ [] 0) (snd (CryptoCache.init w))
  = (Ok stf, wf).
Proof.
  intros Hkey. unfold process_all_tickers, bindM, datetime_now, getenv. rewrite Hkey.
  destruct (String.eqb api_key ""); [discriminate|].
  destruct (CryptoCache.init w) as [[[]|e] w1]; [|discriminate]. cbn [snd].
  destruct (for_batches _ _ api_key _ w1) as [[st|e] w2]; [|discriminate].
  intros [= <- _ <-]. reflexivity.
Qed.


Lemma nothing_recorded s : recorded (Locals ∅ [] 0) s -> False.
Proof.
  intros [[e He] | Hs].
  - cbn in He. rewrite lookup_empty in He. discriminate.
  - cbn in Hs. exact (not_elem_of_nil s Hs).
Qed.

Lemma score_symbol_positive quote_data symbol score price :
  score_symbol quote_data symbol = Ok (Some (score, price)) ->
  Py.truthy price = true /\ Py.gt_zero price = Ok true.
Proof.
  unfold score_symbol.
  repeat match goal with
  | |- context [bindE ?m _] =>
      let E := fresh "E" in destruct m eqn:E; cbn [bindE]; try discriminate
  | |- (if ?b then _ else _) = _ -> _ => destruct b; try discriminate
  end.
  intros [= _ <-].
  match goal with E : (if Py.truthy ?p then _ else _) = Ok true |- _ =>
    destruct (Py.truthy p); [auto|discriminate] end.
Qed.

Lemma process_symbol_prices quote_data st symbol :
  prices_positive st -> prices_positive (process_symbol quote_data st symbol).
Proof.
  intros Hst s score price. rewrite process_symbol_results.
  destruct (score_symbol quote_data symbol) as [[[sc p]|]|e] eqn:Hs; try apply Hst.
  destruct (decide (s = symbol)); [|apply Hst].
  intros [= <- <-]. eapply score_symbol_positive, Hs.
Qed.

Lemma symbol_loop_prices quote_data batch : forall st,
  prices_positive st -> prices_positive (foldl (process_symbol quote_data) st batch).
Proof.
  induction batch as [|x batch IH]; intros st Hst; [exact Hst|].
  cbn [foldl]. apply IH, process_symbol_prices, Hst.
Qed.

Lemma process_batch_prices api_key batch st w st1 w1 :
  process_batch api_key batch st w = (Ok st1, w1) ->
  prices_positive st -> prices_positive st1.
Proof.
  intros Hrun Hst.
  apply process_batch_ok in Hrun as (q & n & w2 & _ & [[_ ->]|[_ ->]]).
  - exact Hst.
  - apply symbol_loop_prices. exact Hst.
Qed.

Lemma for_batches_prices starts tickers api_key : forall st w stf wf,
  for_batches starts tickers api_key st w = (Ok stf, wf) ->
  prices_positive st -> prices_positive stf.
Proof.
  induction starts as [|i rest IH]; intros st w stf wf Hrun Hst.
  - cbn in Hrun. by injection Hrun as <- <-.
  - apply for_batches_cons in Hrun as (st1 & w1 & Hb & Hrest).
    eapply IH; [exact Hrest|]. eapply process_batch_prices; eauto.
Qed.




End PartitionFacts.

(** ** Concrete runs *)

(** *** The cache round trip (C6) *)

(** A set on a cold cache, read one microsecond before and exactly at the
    expiry. *)
Lemma cache_get_after_set_witness :
  exists w1,
    CryptoCache.set "BTC" "quotes" (VStr "payload") (cold_world []) = (Ok tt, w1)
    /\ CryptoCache.get "BTC" "quotes" (at_time w1 3599999999)
       = (Ok (VStr "payload"), at_time w1 3599999999)
    /\ CryptoCache.get "BTC" "quotes" (at_time w1 3600000000)
       = (Ok VNone, at_time w1 3600000000).
Proof.
  destruct (cache_get_after_set (cold_world []) "BTC" "quotes" (VStr "payload")
              empty_cache_wf) as (w1 & Hset & _ & Hhit & Hmiss & _).
  { discriminate. }
  exists w1. split; [exact Hset|]. split.
  - apply Hhit. reflexivity.
  - apply Hmiss. discriminate.
Defined.

(** C6 as stated fails for the data type named [timestamp]: the value set is
    overwritten by the stamp, and [get] returns the stamp. *)
Lemma cache_get_after_set_timestamp_type :
  fst (CryptoCache.get "BTC" "timestamp"
         (snd (CryptoCache.set "BTC" "timestamp" (VStr "payload") (cold_world []))))
  = Ok (VStr "0").
Proof. vm_compute. reflexivity. Qed.

(** *** Exhausted retries (C1, C8) *)

(** C1: the code at the failing input.  Every request for the batch AAA, BBB
    fails; the run returns after three attempts with an empty score mapping
    and an empty failed list: the symbols of the batch are not recorded as
    failed. *)
Theorem exhausted_batch_is_not_recorded :
  fst (process_all_tickers ["AAA"; "BBB"] (cold_world []))
  = Ok (Locals ∅ [] 3, 3000000%Z).
Proof. vm_compute. reflexivity. Qed.

(** C8: the code at the failing input.  After the third failed attempt of
    the first batch the second batch starts at once; the only pause of 100ms
    is the one after the second, fetched batch. *)
Theorem failed_batch_is_not_paced :
  trace (snd failing_then_fetched)
  = [EvFetch (replicate 100 "AAA"); EvHttpGet (replicate 100 "AAA");
     EvSleep Backoff 1000000;
     EvFetch (replicate 100 "AAA"); EvHttpGet (replicate 100 "AAA");
     EvSleep Backoff 2000000;
     EvFetch (replicate 100 "AAA"); EvHttpGet (replicate 100 "AAA");
     EvFetch ["BBB"]; EvHttpGet ["BBB"];
     EvSleep Pacing 100000].
Proof. vm_compute. reflexivity. Qed.

(** *** Duplicates across batches (C2) *)


(** *** The end-to-end scenario of the specification *)

(** BTC and ETH are scored, XYZ is marked failed, in one attempt and one
    pause of 100ms. *)
Lemma scenario_result :
  fst scenario_run
  = Ok (Locals {[ "BTC" := (8.5%float, VFloat 100);
                  "ETH" := ((0.5 * 1 + 0.3 * 2 + 0.2 * 0)%float, VFloat 50) ]}
               ["XYZ"] 1,
        100000%Z).
Proof. vm_compute. reflexivity. Qed.

(** Two distinct symbols in one batch, one of them quoted at an integer
    price beyond the float range: its score entry is assigned, then the
    success message raises and the symbol is appended to the failed list. *)
Lemma huge_price_in_both :
  fst huge_run
  = Ok (Locals {[ "HUGE" := (8.5%float, VInt (10 ^ 400));
                  "OK" := (8.5%float, VFloat 100) ]}
               ["HUGE"] 1,
        100000%Z).
Proof. vm_compute. reflexivity. Qed.



(** *** Retry and backoff (C5) *)


(** *** The credential and the cache file (C7, C9) *)

(** Without the credential the run raises at once; with it, and no reply
    at all from the network, it returns. *)
Example credential_decides_raise_instance :
  process_all_tickers ["btc"] no_credential_world = (Raise ValueError, no_credential_world)
  /\ exists r w', process_all_tickers ["btc"] (cold_world []) = (Ok r, w').
Proof.
  split.
  - apply (proj1 (credential_decides_raise ["btc"] no_credential_world)).
    left. reflexivity.
  - apply (proj2 (credential_decides_raise ["btc"] (cold_world []))
             I "secret"); [reflexivity | discriminate].
Qed.

(** C7: the code at the failing input.  With the credential set, the run
    raises [TypeError] to its caller at the test ['data' in quote_data] of
    the first attempt, before any request is made. *)
Theorem foreign_cache_raises :
  process_all_tickers ["btc"] foreign_cache_world
  = (Raise TypeError,
     World (Some "secret") (disk foreign_cache_world) true 0 []
       (VDict (<["quotes" := VDict (<["BTC" := VFloat 1.5]> ∅)]>
                (<["timestamp" := VDict (<["BTC" := VStr "0"]> ∅)]> ∅)))
       [EvFetch ["BTC"]]).
Proof. vm_compute. reflexivity. Qed.



(** *** A stale entry made fresh by another data type (C10) *)

Lemma stale_world_wf : cache_wf (cache stale_world).
Proof.
  eexists. split; [reflexivity|]. intros name x.
  rewrite lookup_insert. case_decide; [intros [= <-]; eauto|].
  rewrite lookup_insert. case_decide; [intros [= <-]; eauto|].
  rewrite lookup_empty. discriminate.
Qed.

(** C10 as stated fails: with a number under [rsi], [set(BTC, rsi, v)]
    refreshes nothing, and the stale entry under [quotes] is a miss before
    the call and after it. *)
Lemma stale_entry_stays_stale :
  entry (cache numeric_rsi_world) "quotes" "BTC" = VStr "old payload"
  /\ fst (CryptoCache.get "BTC" "quotes" numeric_rsi_world) = Ok VNone
  /\ fst (CryptoCache.set "BTC" "rsi" (VStr "other") numeric_rsi_world) = Ok tt
  /\ fst (CryptoCache.get "BTC" "quotes"
            (snd (CryptoCache.set "BTC" "rsi" (VStr "other") numeric_rsi_world)))
     = Ok VNone.
Proof. split; [|split; [|split]]; vm_compute; reflexivity. Qed.

(** The stale entry under [quotes] is a miss; after a set under [rsi] for
    the same key it is served again.  With a number under [rsi] the key
    stays stale. *)
Lemma cache_freshness_ignores_data_type_witness :
  fst (CryptoCache.get "BTC" "quotes" stale_world) = Ok VNone
  /\ (exists w1,
       CryptoCache.set "BTC" "rsi" (VStr "other") stale_world = (Ok tt, w1)
       /\ CryptoCache.get "BTC" "quotes" (at_time w1 4000000001)
          = (Ok (VStr "old payload"), at_time w1 4000000001))
  /\ (exists w1,
       CryptoCache.set "BTC" "rsi" (VStr "other") numeric_rsi_world = (Ok tt, w1)
       /\ CryptoCache.is_valid "BTC" "quotes" (at_time w1 4000000001)
          = (Ok false, at_time w1 4000000001)).
Proof.
  split; [vm_compute; reflexivity|].
  assert (Hs : settable (cache stale_world) "rsi" = true) by (vm_compute; reflexivity).
  assert (Hn : settable (cache numeric_rsi_world) "rsi" = false) by (vm_compute; reflexivity).
  assert (Hf : fresh (cache numeric_rsi_world) 4000000001 "BTC" = false)
    by (vm_compute; reflexivity).
  split.
  - destruct (cache_freshness_ignores_data_type stale_world "BTC" "rsi" "quotes"
                (VStr "other")) as (w1 & Hset & _ & Hfresh & _).
    destruct (Hfresh Hs) as (_ & Hget & Hsame & _).
    exists w1. split; [exact Hset|].
    rewrite (Hget 4000000001%Z) by reflexivity.
    rewrite Hsame by discriminate. reflexivity.
  - destruct (cache_freshness_ignores_data_type numeric_rsi_world "BTC" "rsi" "quotes"
                (VStr "other")) as (w1 & Hset & _ & _ & Hstale).
    exists w1. split; [exact Hset|].
    rewrite (Hstale Hn 4000000001%Z), Hf. reflexivity.
Defined.

(** * Further properties *)

(** ** The cache key of a batch *)

Section KeyFacts.

Lemma string_compare_trans x : forall y z,
  String.compare x y <> Gt -> String.compare y z <> Gt -> String.compare x z <> Gt.
Proof.
  induction x as [|a x IH]; intros [|b y] [|c z]; cbn; try congruence.
  destruct (Ascii.compare a b) eqn:Hab; try congruence.
  - apply Ascii.compare_eq_iff in Hab. subst b.
    destruct (Ascii.compare a c) eqn:Hac; try congruence. apply IH.
  - intros _. destruct (Ascii.compare b c) eqn:Hbc; try congruence.
    + apply Ascii.compare_eq_iff in Hbc. subst c. rewrite Hab. congruence.
    + intros _.
      assert (Ascii.compare a c = Lt) as ->; [|congruence].
      unfold Ascii.compare in *. rewrite N.compare_lt_iff in *. lia.
Qed.

Lemma string_leb_trans x y z :
  String.leb x y = true -> String.leb y z = true -> String.leb x z = true.
Proof.
  unfold String.leb. intros H1 H2.
  pose proof (string_compare_trans x y z) as Htrans.
  destruct (String.compare x y), (String.compare y z), (String.compare x z);
    try congruence; exfalso; apply Htrans; congruence.
Qed.

#[local] Instance str_le_trans : Transitive str_le.
Proof. intros x y z. apply string_leb_trans. Qed.

#[local] Instance str_le_antisym : AntiSymm (=) str_le.
Proof. intros x y. apply String.leb_antisym. Qed.

Lemma insert_sorted_perm x l : Py.insert_sorted x l ≡ₚ x :: l.
Proof.
  induction l as [|y r IH]; cbn; [reflexivity|].
  destruct (String.leb x y); [reflexivity|].
  rewrite IH. apply Permutation_swap.
Qed.

Lemma sorted_perm l : Py.sorted l ≡ₚ l.
Proof.
  induction l as [|x l IH]; cbn; [reflexivity|].
  rewrite insert_sorted_perm. by rewrite IH.
Qed.

Lemma insert_sorted_Sorted x l :
  Sorted str_le l -> Sorted str_le (Py.insert_sorted x l).
Proof.
  induction 1 as [|y r Hr IH Hy]; cbn.
  - repeat constructor.
  - destruct (String.leb x y) eqn:Hxy.
    + repeat constructor; auto.
    + constructor; [exact IH|].
      assert (str_le y x) as Hyx.
      { destruct (String.leb_total x y) as [Hc|Hc]; [congruence|exact Hc]. }
      destruct Hy as [|z r' Hyz]; cbn; [repeat constructor; auto|].
      destruct (String.leb x z); constructor; auto.
Qed.

Lemma sorted_Sorted l : Sorted str_le (Py.sorted l).
Proof.
  induction l as [|x l IH]; cbn; [constructor|].
  apply insert_sorted_Sorted, IH.
Qed.

(** [sorted] gives the same list for every order of its input. *)
Lemma sorted_permutation l l' : l ≡ₚ l' -> Py.sorted l = Py.sorted l'.
Proof.
  intros Hp. apply (Sorted_unique str_le); try apply sorted_Sorted.
  by rewrite !sorted_perm.
Qed.

Context `{IsoFormat}.

(** X1: the cache key [','.join(sorted(symbols))] of a batch does not depend
    on the order of its symbols (duplicates kept): two orderings of one
    batch have the same key, hence hit or miss the cache together. *)
Theorem batch_key_order_independent (symbols symbols' : list string) :
  symbols ≡ₚ symbols' ->
  batch_key symbols = batch_key symbols'
  /\ forall c now, cache_hit c now symbols = cache_hit c now symbols'.
Proof.
  intros Hp.
  assert (batch_key symbols = batch_key symbols') as Hkey.
  { unfold batch_key. by rewrite (sorted_permutation _ _ Hp). }
  split; [exact Hkey|]. intros c now. unfold cache_hit. by rewrite Hkey.
Qed.

End KeyFacts.

(** ** One call of [get_batch_quotes] *)

Section HitFacts.
Context `{IsoFormat}.

(** A body that reports success is a non-empty mapping, and its response
    has the status 200. *)
Lemma api_success_inv status data :
  api_success status data = Ok true -> status = 200%Z /\ Py.truthy data = true.
Proof.
  unfold api_success. destruct (Z.eqb_spec status 200) as [->|]; [|discriminate].
  destruct data as [| | | | | |d]; try discriminate. cbn.
  destruct (d !! "status") as [st|] eqn:Hst; cbn.
  - intros _. split; [reflexivity|].
    destruct (Nat.eqb_spec (size d) 0) as [Hz|]; [|reflexivity].
    apply map_size_empty_inv in Hz. subst d. rewrite lookup_empty in Hst. discriminate.
  - rewrite lookup_empty. cbn. discriminate.
Qed.

Lemma get_batch_quotes_hit symbols api_key w :
  cache_hit (cache w) (clock w) symbols = true ->
  get_batch_quotes symbols api_key w
  = (Ok (entry (cache w) "quotes" (batch_key symbols)), entered symbols w).
Proof.
  unfold cache_hit. intros [Hf Ht]%andb_true_iff.
  unfold get_batch_quotes, bindM, emit. fold (entered symbols w).
  rewrite get_run. cbn [cache clock entered]. fold (batch_key symbols).
  rewrite Hf, Ht. reflexivity.
Qed.

(** On a miss the call is the request and what follows it. *)
Lemma get_batch_quotes_miss symbols api_key w :
  cache_hit (cache w) (clock w) symbols = false ->
  get_batch_quotes symbols api_key w
  = try_except
      (let* response := http_get symbols in
       match response with
       | TransportError => raise OSError
       | Reply status body =>
           if Z.eqb status 429 then
             let* _ := sleep Cooldown 10000000 in
             ret VNone
           else
             match body with
             | None => raise ValueError
             | Some data =>
                 let* success := lift (api_success status data) in
                 if success then
                   let* _ := CryptoCache.set (batch_key symbols) "quotes" data in
                   ret data
                 else
                   let* _ := lift (api_error_message data) in
                   ret VNone
             end
       end)
      (fun _ => ret VNone) (entered symbols w).
Proof.
  unfold cache_hit. intros Hmiss.
  unfold get_batch_quotes at 1, bindM at 1, emit. fold (entered symbols w).
  unfold bindM at 1.
  rewrite get_run. cbn [cache clock entered]. fold (batch_key symbols).
  destruct (fresh _ _ _); [|reflexivity].
  cbn in Hmiss. rewrite Hmiss. reflexivity.
Qed.

Ltac after_request :=
  do 2 eexists; split; [reflexivity|]; split; [discriminate|];
  intros _; cbn [net trace]; rewrite <- ?app_assoc; cbn [app]; auto.

(** X2: [get_batch_quotes] never raises.  On a cache hit (a fresh, truthy
    payload under the batch key) it returns the cached payload and does
    nothing else: no request, no sleep, no write.  On a miss it makes
    exactly one request, followed by at most the 10 s cooldown. *)
Theorem one_request_per_cache_miss (symbols : list string) (api_key : string) (w : world) :
  exists v w',
    get_batch_quotes symbols api_key w = (Ok v, w')
    /\ (cache_hit (cache w) (clock w) symbols = true ->
        v = entry (cache w) "quotes" (batch_key symbols)
        /\ w' = entered symbols w)
    /\ (cache_hit (cache w) (clock w) symbols = false ->
        net w' = tail (net w)
        /\ (trace w' = trace w ++ [EvFetch symbols; EvHttpGet symbols]
            \/ trace w' = trace w ++ [EvFetch symbols; EvHttpGet symbols;
                                      EvSleep Cooldown 10000000])).
Proof.
  destruct (cache_hit (cache w) (clock w) symbols) eqn:Hhit.
  - rewrite (get_batch_quotes_hit _ _ _ Hhit). do 2 eexists.
    split; [reflexivity|]. split; [auto|discriminate].
  - rewrite (get_batch_quotes_miss _ _ _ Hhit).
    unfold try_except, bindM, http_get, raise, ret, lift, sleep.
    cbn [net entered env_key disk disk_writable clock cache trace].
    destruct (net w) as [|[|status body] rest]; [after_request|after_request|].
    destruct (Z.eqb status 429); [after_request|].
    destruct body as [data|]; [|after_request].
    destruct (api_success status data) as [[|]|e]; [| |after_request].
    + match goal with |- context [CryptoCache.set ?k ?t ?v ?w0] =>
        destruct (set_frame k t v w0) as (c & f & ->) end.
      after_request.
    + destruct (api_error_message data); after_request.
Qed.

(** X3: a failing reply on a miss (a transport error, a 429, a body that is
    not JSON or does not report success) gives [None] and leaves the cache
    and its file as they were; only the 429 costs time, the 10 s cooldown. *)
Theorem failed_fetch_changes_nothing (symbols : list string) (api_key : string)
    (w : world) (r : http_reply) (rest : list http_reply) :
  cache_hit (cache w) (clock w) symbols = false ->
  net w = r :: rest ->
  failing r ->
  exists w',
    get_batch_quotes symbols api_key w = (Ok VNone, w')
    /\ cache w' = cache w /\ disk w' = disk w /\ net w' = rest
    /\ clock w' = (clock w + (if rate_limited r then 10000000 else 0))%Z.
Proof.
  intros Hmiss Hnet Hfail.
  rewrite (get_batch_quotes_miss _ _ _ Hmiss).
  unfold try_except, bindM, http_get, raise, ret, lift, sleep.
  cbn [net entered env_key disk disk_writable clock cache trace].
  rewrite Hnet. cbn [tail].
  assert (forall z : Z, (z = z + 0)%Z) as Hz by (intros; lia).
  destruct r as [|status body]; cbn [rate_limited].
  { eexists. split; [reflexivity|]. cbn. auto. }
  destruct (Z.eqb_spec status 429) as [->|Hne].
  { eexists. split; [reflexivity|]. cbn. auto. }
  destruct body as [data|]; [|eexists; split; [reflexivity|]; cbn; auto].
  destruct Hfail as [|Hfail]; [contradiction|].
  destruct (api_success status data) as [[|]|e]; [congruence| |].
  - destruct (api_error_message data); eexists; (split; [reflexivity|]); cbn; auto.
  - eexists. split; [reflexivity|]. cbn. auto.
Qed.

(** X4: a reply that reports success on a miss is returned and cached: on a
    cache document of the documented form, the next call for the same batch,
    in any order of its symbols and with any credential, returns the same
    payload without a request for as long as less than 3600 s have passed;
    from then on the batch is a miss again. *)
Theorem fetched_batch_is_cached (symbols : list string) (api_key : string) (w : world)
    (status : Z) (data : value) (rest : list http_reply) :
  cache_wf (cache w) ->
  cache_hit (cache w) (clock w) symbols = false ->
  net w = Reply status (Some data) :: rest ->
  api_success status data = Ok true ->
  exists w1,
    get_batch_quotes symbols api_key w = (Ok data, w1)
    /\ net w1 = rest
    /\ cache_wf (cache w1)
    /\ (forall symbols' api_key' now,
          symbols' ≡ₚ symbols ->
          (now - clock w < CACHE_EXPIRY * 1000000)%Z ->
          get_batch_quotes symbols' api_key' (at_time w1 now)
          = (Ok data, entered symbols' (at_time w1 now)))
    /\ (forall symbols' now,
          symbols' ≡ₚ symbols ->
          (CACHE_EXPIRY * 1000000 <= now - clock w)%Z ->
          cache_hit (cache w1) now symbols' = false).
Proof.
  intros Hwf Hmiss Hnet Hok.
  destruct (api_success_inv _ _ Hok) as [-> Htruthy].
  rewrite (get_batch_quotes_miss _ _ _ Hmiss).
  unfold try_except, bindM, http_get, raise, ret, lift, sleep.
  cbn [net entered env_key disk disk_writable clock cache trace].
  rewrite Hnet. cbn [tail Z.eqb Pos.eqb]. rewrite Hok.
  rewrite set_run by exact Hwf.
  cbn [cache clock].
  eexists. split; [reflexivity|].
  rewrite cache_saved. cbn [with_cache cache].
  split; [unfold saved; cbn; destruct (disk_writable w); reflexivity|].
  split; [by apply stored_wf|].
  assert (forall symbols', symbols' ≡ₚ symbols -> batch_key symbols' = batch_key symbols)
    as Hkey.
  { intros symbols' Hp. unfold batch_key. by rewrite (sorted_permutation _ _ Hp). }
  split.
  - intros symbols' api_key' now Hp Hnow.
    rewrite get_batch_quotes_hit.
    + cbn [at_time cache]. rewrite cache_saved. cbn [with_cache cache].
      rewrite (Hkey _ Hp), entry_stored_same by (auto; discriminate). reflexivity.
    + unfold cache_hit. cbn [at_time cache clock]. rewrite cache_saved.
      cbn [with_cache cache].
      rewrite (Hkey _ Hp), fresh_stored, entry_stored_same by (auto; discriminate).
      rewrite Htruthy, andb_true_r. by apply Z.ltb_lt.
  - intros symbols' now Hp Hnow. unfold cache_hit.
    rewrite (Hkey _ Hp), fresh_stored by auto.
    apply andb_false_intro1. by apply Z.ltb_ge.
Qed.

End HitFacts.

(** ** The cache and its file *)

Section PersistenceFacts.
Context `{IsoFormat}.

Lemma ensure_shape name w : exists o c, CryptoCache.ensure name w = (o, with_cache w c).
Proof.
  unfold CryptoCache.ensure, bindM, self_cache, lift, put_cache.
  destruct (CryptoCache.ensure_mapping name (cache w)) as [c|e].
  - by exists (Ok tt), c.
  - exists (Raise e), (cache w). by rewrite with_cache_same.
Qed.

Lemma store_shape name key v w :
  exists o c, CryptoCache.store name key v w = (o, with_cache w c).
Proof.
  unfold CryptoCache.store, bindM, self_cache, lift, put_cache.
  destruct (Py.getitem (cache w) name) as [entries|e];
    [|exists (Raise e), (cache w); by rewrite with_cache_same].
  destruct (Py.setitem entries key v) as [entries'|e];
    [|exists (Raise e), (cache w); by rewrite with_cache_same].
  destruct (Py.setitem (cache w) name entries') as [c|e];
    [|exists (Raise e), (cache w); by rewrite with_cache_same].
  by exists (Ok tt), c.
Qed.

(** [set] ends in a world that differs from the one it started in by the
    cache document alone, or by the cache document and a file that holds
    that very document. *)
Lemma set_shape key data_type v w :
  exists w1 c,
    CryptoCache.set key data_type v w = (Ok tt, w1)
    /\ (w1 = with_cache w c \/ w1 = saved (with_cache w c)).
Proof.
  unfold CryptoCache.set, try_except. unfold bindM at 1.
  destruct (ensure_shape data_type w) as (o1 & c1 & ->).
  destruct o1 as [[]|e]; [|exists (with_cache w c1), c1; by auto].
  unfold bindM at 1.
  destruct (store_shape data_type key v (with_cache w c1)) as (o2 & c2 & ->).
  rewrite with_cache_twice.
  destruct o2 as [[]|e]; [|exists (with_cache w c2), c2; by auto].
  unfold bindM at 1.
  destruct (ensure_shape "timestamp" (with_cache w c2)) as (o3 & c3 & ->).
  rewrite with_cache_twice.
  destruct o3 as [[]|e]; [|exists (with_cache w c3), c3; by auto].
  unfold bindM at 1, datetime_now. unfold bindM at 1.
  destruct (store_shape "timestamp" key (VStr (isoformat (clock (with_cache w c3))))
              (with_cache w c3)) as (o4 & c4 & ->).
  rewrite with_cache_twice.
  destruct o4 as [[]|e]; [|exists (with_cache w c4), c4; by auto].
  rewrite save_cache_run. exists (saved (with_cache w c4)), c4. auto.
Qed.

(** X5: [set] never raises, whatever the cache document holds, and touches
    nothing but the cache document and the cache file.  The file is
    rewritten only once the entry and its stamp are both in place: it is
    left as it was or holds the cache document as it is in memory after the
    call; when it cannot be opened for writing it is left as it was. *)
Theorem set_never_raises (key data_type : string) (v : value) (w : world) :
  exists w1,
    CryptoCache.set key data_type v w = (Ok tt, w1)
    /\ env_key w1 = env_key w /\ clock w1 = clock w /\ net w1 = net w
    /\ trace w1 = trace w /\ disk_writable w1 = disk_writable w
    /\ (disk w1 = disk w \/ disk w1 = FileDoc (cache w1))
    /\ (disk_writable w = false -> disk w1 = disk w).
Proof.
  destruct (set_shape key data_type v w) as (w1 & c & Hrun & [-> | ->]);
    (eexists; split; [exact Hrun|]).
  - cbn. tauto.
  - unfold saved. cbn [with_cache disk_writable].
    destruct (disk_writable w) eqn:Hd; cbn; rewrite ?Hd; intuition congruence.
Qed.

Lemma ensured_entry d name t k :
  entry (VDict (ensured d name)) t k = entry (VDict d) t k.
Proof.
  unfold ensured, entry. case_bool_decide as Hin; [reflexivity|].
  destruct (decide (t = name)) as [->|Hne].
  - rewrite lookup_insert_eq.
    destruct (d !! name) eqn:Hd; [exfalso; apply Hin; eauto|].
    by rewrite lookup_empty.
  - by rewrite lookup_insert_ne.
Qed.

Lemma ensured_stamp d name k :
  stamp (VDict (ensured d name)) k = stamp (VDict d) k.
Proof.
  unfold ensured, stamp. case_bool_decide as Hin; [reflexivity|].
  destruct (decide ("timestamp" = name)) as [<-|Hne].
  - rewrite lookup_insert_eq.
    destruct (d !! "timestamp") eqn:Hd; [exfalso; apply Hin; eauto|].
    by rewrite lookup_empty.
  - by rewrite lookup_insert_ne.
Qed.

(** What a [get] answers depends on the stamp and the entry of the key
    alone. *)
Lemma get_extensional key data_type w w' :
  stamp (cache w) key = stamp (cache w') key ->
  entry (cache w) data_type key = entry (cache w') data_type key ->
  clock w = clock w' ->
  fst (CryptoCache.get key data_type w) = fst (CryptoCache.get key data_type w').
Proof.
  intros Hs He Hc. rewrite !get_run. cbn [fst]. unfold fresh.
  by rewrite Hs, He, Hc.
Qed.

(** X6: what [set] stores survives a restart.  On a cache document of the
    documented form and a writable file, [set] leaves the file holding the
    cache document, and a cache object built from that file by a later
    process answers every [get], at every time, as the one in memory does. *)
Theorem set_survives_restart (w : world) (key data_type : string) (v : value) :
  cache_wf (cache w) ->
  disk_writable w = true ->
  exists w1,
    CryptoCache.set key data_type v w = (Ok tt, w1)
    /\ disk w1 = FileDoc (cache w1)
    /\ forall w2, disk w2 = disk w1 ->
         exists c,
           CryptoCache.init w2 = (Ok tt, with_cache w2 c)
           /\ forall k t now,
                fst (CryptoCache.get k t (at_time (with_cache w2 c) now))
                = fst (CryptoCache.get k t (at_time w1 now)).
Proof.
  intros Hwf Hd. rewrite set_run by exact Hwf.
  eexists. split; [reflexivity|].
  unfold saved. cbn [with_cache disk_writable]. rewrite Hd. cbn [disk cache].
  split; [reflexivity|].
  intros w2 Hw2.
  destruct (stored_wf (cache w) (clock w) key data_type v Hwf) as (d1 & Hd1 & _).
  rewrite Hd1 in *.
  exists (VDict (ensured (ensured d1 "quotes") "timestamp")). split.
  - unfold CryptoCache.init, bindM. by rewrite (load_cache_document d1 w2 Hw2).
  - intros k t now. apply get_extensional; cbn [at_time with_cache cache clock].
    + by rewrite !ensured_stamp.
    + by rewrite !ensured_entry.
    + reflexivity.
Qed.

Lemma put_entry_lookup_other d name key v other :
  other <> name -> put_entry d name key v !! other = d !! other.
Proof. intros Hne. unfold put_entry. by rewrite lookup_insert_ne. Qed.

Lemma entries_of_put_entry d name key v :
  entries_of (put_entry d name key v) name = <[key := v]> (entries_of d name).
Proof. unfold put_entry, entries_of at 1. by rewrite lookup_insert_eq. Qed.

Lemma entries_of_put_entry_other d name key v other :
  other <> name -> entries_of (put_entry d name key v) other = entries_of d other.
Proof. intros Hne. unfold entries_of. by rewrite put_entry_lookup_other. Qed.

Lemma entry_entries_of d t k :
  entry (VDict d) t k = default VNone (entries_of d t !! k).
Proof.
  unfold entry, entries_of.
  destruct (d !! t) as [[| | | | | |entries]|]; try reflexivity;
    by rewrite lookup_empty.
Qed.

Lemma entries_of_put_entry_key d name key v other k :
  k <> key ->
  entries_of (put_entry d name key v) other !! k = entries_of d other !! k.
Proof.
  intros Hk. destruct (decide (other = name)) as [->|Hne].
  - by rewrite entries_of_put_entry, lookup_insert_ne.
  - by rewrite entries_of_put_entry_other.
Qed.

Lemma entry_stored_key c now key data_type v t k :
  k <> key -> entry (stored c now key data_type v) t k = entry c t k.
Proof.
  intros Hk. destruct c as [| | | | | |d]; try reflexivity.
  unfold stored. rewrite !entry_entries_of.
  by rewrite !entries_of_put_entry_key.
Qed.

Lemma stamp_entry c k :
  stamp c k = match entry c "timestamp" k with
              | VStr s => if String.eqb s "" then None else fromisoformat s
              | _ => None
              end.
Proof.
  unfold stamp, entry. destruct c as [| | | | | |d]; try reflexivity.
  destruct (d !! "timestamp") as [[| | | | | |stamps]|]; try reflexivity.
  destruct (stamps !! k) as [[]|]; reflexivity.
Qed.

(** X7: [set] for one key leaves every other key alone: on a cache document
    of the documented form, [get] for another key answers after the [set]
    what it answered before, under every data type and at every time. *)
Theorem set_leaves_other_keys (w : world) (key data_type : string) (v : value) :
  cache_wf (cache w) ->
  exists w1,
    CryptoCache.set key data_type v w = (Ok tt, w1)
    /\ forall k t now,
         k <> key ->
         fst (CryptoCache.get k t (at_time w1 now))
         = fst (CryptoCache.get k t (at_time w now)).
Proof.
  intros Hwf. rewrite set_run by exact Hwf.
  eexists. split; [reflexivity|].
  intros k t now Hk. apply get_extensional; cbn [at_time cache clock];
    rewrite ?cache_saved; cbn [with_cache cache].
  - rewrite !stamp_entry. by rewrite entry_stored_key.
  - by apply entry_stored_key.
  - reflexivity.
Qed.

End PersistenceFacts.

(** ** Batches *)

Section BatchFacts.

Lemma range_step_length stop : length (range_step stop BATCH_SIZE) = (stop + 99) / 100.
Proof.
  unfold range_step, BATCH_SIZE. rewrite length_fmap, length_seq.
  f_equal. lia.
Qed.

Lemma range_step_lookup stop j i :
  range_step stop BATCH_SIZE !! j = Some i -> i = j * BATCH_SIZE /\ i < stop.
Proof.
  unfold range_step, BATCH_SIZE. rewrite list_lookup_fmap.
  destruct (seq 0 ((stop + 100 - 1) / 100) !! j) as [j'|] eqn:Hj; [|discriminate].
  apply lookup_seq in Hj as [-> Hlt]. cbn. intros [= <-]. split; [reflexivity|].
  pose proof (Nat.Div0.mul_div_le (stop + 100 - 1) 100). lia.
Qed.

(** X8: the slices [tickers[i:i + BATCH_SIZE]] over
    [range(0, len(tickers), BATCH_SIZE)] cut the ticker list into consecutive
    batches: put end to end they are the list, there are
    ceil(len(tickers) / 100) of them, and each holds between 1 and 100
    symbols, 100 unless it is the last. *)
Theorem batches_partition (tickers : list string) :
  concat (batches tickers) = tickers
  /\ length (batches tickers) = (length tickers + 99) / 100
  /\ forall j batch, batches tickers !! j = Some batch ->
       batch = take BATCH_SIZE (drop (j * BATCH_SIZE) tickers)
       /\ length batch = Nat.min BATCH_SIZE (length tickers - j * BATCH_SIZE)
       /\ 0 < length batch.
Proof.
  split; [apply batches_concat|]. split.
  - unfold batches. by rewrite length_fmap, range_step_length.
  - intros j batch. unfold batches. rewrite list_lookup_fmap.
    destruct (range_step (length tickers) BATCH_SIZE !! j) as [i|] eqn:Hi; [|discriminate].
    apply range_step_lookup in Hi as [-> Hlt]. cbn [fmap option_fmap option_map].
    intros [= <-].
    split; [reflexivity|]. unfold batch_at.
    rewrite length_take, length_drop. unfold BATCH_SIZE in *. lia.
Qed.

End BatchFacts.

(** ** Counting calls and requests *)

Section CountFacts.
Context `{IsoFormat}.

Lemma calls_made_app tl1 tl2 : calls_made (tl1 ++ tl2) = calls_made tl1 + calls_made tl2.
Proof. unfold calls_made. by rewrite List.filter_app, length_app. Qed.

Lemma requests_made_app tl1 tl2 :
  requests_made (tl1 ++ tl2) = requests_made tl1 + requests_made tl2.
Proof. unfold requests_made. by rewrite List.filter_app, length_app. Qed.

Ltac shape :=
  do 3 eexists; split; [reflexivity|]; cbn [net trace entered];
  rewrite <- ?app_assoc; cbn [app]; split; [reflexivity|]; cbn; lia.

(** One call of [get_batch_quotes] is one entry in the log and at most one
    request. *)
Lemma get_batch_quotes_counts symbols api_key w :
  exists v w' tl,
    get_batch_quotes symbols api_key w = (Ok v, w')
    /\ trace w' = trace w ++ tl
    /\ calls_made tl = 1 /\ requests_made tl <= 1.
Proof.
  destruct (cache_hit (cache w) (clock w) symbols) eqn:Hhit.
  - rewrite (get_batch_quotes_hit _ _ _ Hhit). shape.
  - rewrite (get_batch_quotes_miss _ _ _ Hhit).
    unfold try_except, bindM, http_get, raise, ret, lift, sleep.
    cbn [net entered env_key disk disk_writable clock cache trace].
    destruct (net w) as [|[|status body] rest]; [shape|shape|].
    destruct (Z.eqb status 429); [shape|].
    destruct body as [data|]; [|shape].
    destruct (api_success status data) as [[|]|e]; [| |shape].
    + match goal with |- context [CryptoCache.set ?k ?t ?v ?w0] =>
        destruct (set_frame k t v w0) as (c & f & ->) end.
      shape.
    + destruct (api_error_message data); shape.
Qed.

Lemma retry_loop_counts retries batch api_key : forall quote_data calls w o w',
  retry_loop retries batch api_key quote_data calls w = (o, w') ->
  exists tl,
    trace w' = trace w ++ tl
    /\ requests_made tl <= calls_made tl
    /\ calls_made tl <= length retries
    /\ (retries <> [] -> 1 <= calls_made tl)
    /\ match o with
       | Ok r => snd r = calls + calls_made tl
       | Raise _ => True
       end.
Proof.
  induction retries as [|retry rest IH]; intros quote_data calls w o w' Hrun.
  - cbn in Hrun. injection Hrun as <- <-. exists []. rewrite app_nil_r. cbn.
    repeat split; try lia. congruence.
  - cbn [retry_loop] in Hrun. unfold bindM at 1 in Hrun.
    destruct (get_batch_quotes_counts batch api_key w) as (q & w1 & tl1 & Hq & Ht1 & Hc1 & Hr1).
    rewrite Hq in Hrun. unfold bindM at 1, lift in Hrun.
    destruct (has_data q) as [[|]|e].
    + injection Hrun as <- <-. exists tl1. cbn [snd length].
      repeat split; auto; lia.
    + unfold bindM at 1 in Hrun.
      destruct (Nat.ltb retry 2).
      * unfold sleep in Hrun.
        apply IH in Hrun as (tl2 & Ht2 & Hrc & Hlen & _ & Ho).
        cbn [trace] in Ht2. rewrite Ht1, <- !app_assoc in Ht2.
        eexists. split; [exact Ht2|].
        rewrite !calls_made_app, !requests_made_app. cbn [length].
        change (calls_made [EvSleep Backoff (2 ^ Z.of_nat retry * 1000000)]) with 0.
        change (requests_made [EvSleep Backoff (2 ^ Z.of_nat retry * 1000000)]) with 0.
        repeat split; try lia. destruct o; [lia|exact I].
      * unfold ret in Hrun.
        apply IH in Hrun as (tl2 & Ht2 & Hrc & Hlen & _ & Ho).
        rewrite Ht1, <- !app_assoc in Ht2.
        eexists. split; [exact Ht2|].
        rewrite !calls_made_app, !requests_made_app. cbn [length].
        repeat split; try lia. destruct o; [lia|exact I].
    + injection Hrun as <- <-. exists tl1. cbn [length].
      repeat split; auto; lia.
Qed.

Lemma process_batch_counts api_key batch st w st1 w1 :
  process_batch api_key batch st w = (Ok st1, w1) ->
  exists tl,
    trace w1 = trace w ++ tl
    /\ requests_made tl <= calls_made tl
    /\ 1 <= calls_made tl <= 3
    /\ api_calls st1 = api_calls st + calls_made tl.
Proof.
  rewrite process_batch_run.
  destruct (retry_loop (seq 0 3) batch api_key VNone (api_calls st) w)
    as [[[q n]|e] w2] eqn:Hloop; [|discriminate].
  apply retry_loop_counts in Hloop as (tl & Ht & Hrc & Hlen & Hpos & Hn).
  cbn [snd length seq] in *. specialize (Hpos ltac:(discriminate)).
  destruct (has_data q) as [[|]|e]; [| |discriminate].
  - intros [= <- <-]. exists (tl ++ [EvSleep Pacing 100000]).
    cbn [sleep snd trace]. rewrite Ht, <- app_assoc. split; [reflexivity|].
    rewrite calls_made_app, requests_made_app, symbol_loop_api_calls.
    cbn [api_calls]. change (calls_made [EvSleep Pacing 100000]) with 0.
    change (requests_made [EvSleep Pacing 100000]) with 0. lia.
  - intros [= <- <-]. exists tl. cbn [api_calls]. repeat split; auto; lia.
Qed.

Lemma for_batches_counts starts tickers api_key : forall st w stf wf,
  for_batches starts tickers api_key st w = (Ok stf, wf) ->
  exists tl,
    trace wf = trace w ++ tl
    /\ requests_made tl <= calls_made tl
    /\ length starts <= calls_made tl <= 3 * length starts
    /\ api_calls stf = api_calls st + calls_made tl.
Proof.
  induction starts as [|i rest IH]; intros st w stf wf Hrun.
  - cbn in Hrun. injection Hrun as <- <-. exists []. rewrite app_nil_r.
    split; [reflexivity|]. cbn. lia.
  - apply for_batches_cons in Hrun as (st1 & w1 & Hb & Hrest).
    apply process_batch_counts in Hb as (tl1 & Ht1 & Hr1 & Hc1 & Ha1).
    apply IH in Hrest as (tl2 & Ht2 & Hr2 & Hc2 & Ha2).
    exists (tl1 ++ tl2). rewrite Ht2, Ht1, <- app_assoc. split; [reflexivity|].
    rewrite calls_made_app, requests_made_app. cbn [length]. lia.
Qed.

Lemma init_run w : exists c, CryptoCache.init w = (Ok tt, with_cache w c).
Proof.
  destruct (load_cache_total w) as (c & Hc). exists c.
  unfold CryptoCache.init, bindM. by rewrite Hc.
Qed.

(** X9: when [process_all_tickers] returns, [api_calls] is the number of
    calls of [get_batch_quotes] the run made; it lies between the number of
    batches and three times that number, and the run made no more HTTP
    requests than that. *)
Theorem api_calls_bounds (tickers : list string) (w : world) (api_key : string)
    (stf : locals) (dur : Z) (wf : world) :
  env_key w = Some api_key ->
  process_all_tickers tickers w = (Ok (stf, dur), wf) ->
  exists tl,
    trace wf = trace w ++ tl
    /\ api_calls stf = calls_made tl
    /\ requests_made tl <= api_calls stf
    /\ (length tickers + 99) / 100 <= api_calls stf <= 3 * ((length tickers + 99) / 100).
Proof.
  intros Hkey Hrun. apply (process_all_loop _ _ _ _ _ _ Hkey) in Hrun.
  destruct (init_run w) as (c & Hinit). rewrite Hinit in Hrun. cbn [snd] in Hrun.
  apply for_batches_counts in Hrun as (tl & Ht & Hr & Hc & Ha).
  rewrite range_step_length, length_fmap in Hc. cbn in Ht, Ha.
  exists tl. split; [exact Ht|]. lia.
Qed.

End CountFacts.

(** ** The results of a run *)

Section ResultFacts.
Context `{IsoFormat}.

(** X10: when [process_all_tickers] returns, every entry of [results] holds
    a price that is truthy and above zero: a symbol quoted at a price of
    zero, below zero or not at all never gets a score. *)
Theorem scored_prices_are_positive (tickers : list string) (w : world) (api_key : string)
    (stf : locals) (dur : Z) (wf : world) :
  env_key w = Some api_key ->
  process_all_tickers tickers w = (Ok (stf, dur), wf) ->
  forall s score price,
    results stf !! s = Some (score, price) ->
    Py.truthy price = true /\ Py.gt_zero price = Ok true.
Proof.
  intros Hkey Hrun. apply (process_all_loop _ _ _ _ _ _ Hkey) in Hrun.
  eapply for_batches_prices; [exact Hrun|].
  intros s score price. cbn. by rewrite lookup_empty.
Qed.

(** X11: with a credential and an empty ticker list the run returns with no
    scores, no failed symbols and no calls.  It builds the cache from the
    file and does nothing else: no request, no sleep (the duration, which
    counts sleeps only, is zero), no write. *)
Theorem no_tickers_no_requests (w : world) (api_key : string) :
  env_key w = Some api_key -> api_key <> "" ->
  exists c,
    process_all_tickers [] w = (Ok (Locals ∅ [] 0, 0%Z), with_cache w c)
    /\ CryptoCache._load_cache w = (Ok c, w).
Proof.
  intros Hkey Hne.
  destruct (load_cache_total w) as (c & Hc). exists c. split; [|exact Hc].
  unfold process_all_tickers, bindM, datetime_now, getenv. rewrite Hkey.
  apply String.eqb_neq in Hne. rewrite Hne.
  unfold CryptoCache.init, bindM. rewrite Hc. cbn.
  by rewrite Z.sub_diag.
Qed.

Lemma upper_ascii_idemp c : Py.upper_ascii (Py.upper_ascii c) = Py.upper_ascii c.
Proof. destruct c as [[] [] [] [] [] [] [] []]; reflexivity. Qed.

Lemma upper_idemp s : Py.upper (Py.upper s) = Py.upper s.
Proof.
  induction s as [|c s IH]; [reflexivity|].
  cbn [Py.upper]. by rewrite upper_ascii_idemp, IH.
Qed.

(** X12: every symbol the run records, as a key of [results] or in
    [failed_tokens], is in upper case ([s.upper() == s]): a ticker given in
    lower case is recorded under its upper-case form only. *)
Theorem recorded_symbols_are_uppercase (tickers : list string) (w : world)
    (api_key : string) (stf : locals) (dur : Z) (wf : world) :
  env_key w = Some api_key ->
  process_all_tickers tickers w = (Ok (stf, dur), wf) ->
  forall s, recorded stf s -> Py.upper s = s.
Proof.
  intros Hkey Hrun s Hs. apply (process_all_loop _ _ _ _ _ _ Hkey) in Hrun.
  destruct (for_batches_within _ _ _ _ _ _ _ _ Hrun Hs) as [Hrec|(i & _ & Hin)].
  - by apply nothing_recorded in Hrec.
  - apply batch_at_subseteq in Hin.
    apply list_elem_of_fmap in Hin as (t & -> & _). apply upper_idemp.
Qed.

End ResultFacts.

(** ** A run on a warm cache file *)

Section WarmRunFacts.
Context `{IsoFormat}.

(** A ticker list of at most [BATCH_SIZE] symbols is one batch. *)
Lemma single_batch (tickers : list string) :
  0 < length tickers <= BATCH_SIZE ->
  range_step (length tickers) BATCH_SIZE = [0] /\ batch_at tickers 0 = tickers.
Proof.
  unfold BATCH_SIZE. intros Hlen. split.
  - unfold range_step.
    assert ((length tickers + 100 - 1) / 100 = 1) as ->; [|reflexivity].
    symmetry. apply (Nat.div_unique _ 100 1 (length tickers - 1)); lia.
  - unfold batch_at, BATCH_SIZE. rewrite drop_0. apply take_ge. lia.
Qed.

(** A batch whose first attempt gives a usable payload. *)
Lemma process_batch_first_try api_key batch st w q w1 :
  get_batch_quotes batch api_key w = (Ok q, w1) ->
  has_data q = Ok true ->
  process_batch api_key batch st w
  = (Ok (foldl (process_symbol q)
           (Locals (results st) (failed_tokens st) (S (api_calls st))) batch),
     snd (sleep Pacing 100000 w1)).
Proof.
  intros Hq Hdata. rewrite process_batch_run.
  cbn [seq retry_loop]. unfold bindM at 1. rewrite Hq.
  unfold bindM at 1, lift. rewrite Hdata. unfold ret. rewrite Hdata. reflexivity.
Qed.

Lemma process_all_single_batch tickers w api_key :
  env_key w = Some api_key -> api_key <> "" ->
  0 < length tickers <= BATCH_SIZE ->
  process_all_tickers tickers w
  = match process_batch api_key (Py.upper <$> tickers) (Locals ∅ [] 0)
            (snd (CryptoCache.init w)) with
    | (Ok st, w') => (Ok (st, (clock w' - clock w)%Z), w')
    | (Raise e, w') => (Raise e, w')
    end.
Proof.
  intros Hkey Hne Hlen.
  unfold process_all_tickers, bindM at 1, datetime_now. unfold bindM at 1, getenv.
  rewrite Hkey. apply String.eqb_neq in Hne. rewrite Hne.
  unfold bindM at 1. destruct (init_run w) as (c & ->). cbn [snd].
  destruct (single_batch (Py.upper <$> tickers)) as [-> Hb].
  { by rewrite length_fmap. }
  unfold bindM at 1. cbn [for_batches]. fold (batch_at (Py.upper <$> tickers) 0).
  rewrite Hb. unfold bindM at 1.
  destruct (process_batch _ _ _ _) as [[st|e] w']; reflexivity.
Qed.

(** The world after a request that comes back with a reply that reports
    success: the reply is consumed and its body cached and saved. *)
Lemma get_batch_quotes_fetch symbols api_key w status data rest :
  cache_wf (cache w) ->
  cache_hit (cache w) (clock w) symbols = false ->
  net w = Reply status (Some data) :: rest ->
  api_success status data = Ok true ->
  get_batch_quotes symbols api_key w
  = (Ok data,
     saved (World (env_key w) (disk w) (disk_writable w) (clock w) rest
              (stored (cache w) (clock w) (batch_key symbols) "quotes" data)
              ((trace w ++ [EvFetch symbols]) ++ [EvHttpGet symbols]))).
Proof.
  intros Hwf Hmiss Hnet Hok.
  destruct (api_success_inv _ _ Hok) as [-> Htruthy].
  rewrite (get_batch_quotes_miss _ _ _ Hmiss).
  unfold try_except, bindM, http_get, raise, ret, lift, sleep.
  cbn [net entered env_key disk disk_writable clock cache trace].
  rewrite Hnet. cbn [tail Z.eqb Pos.eqb]. rewrite Hok.
  rewrite set_run by exact Hwf. reflexivity.
Qed.

Lemma fresh_ensured d name now key :
  fresh (VDict (ensured d name)) now key = fresh (VDict d) now key.
Proof. unfold fresh. by rewrite ensured_stamp. Qed.

(** X13: a second run is served from the cache file.  A first run over at
    most 100 tickers, started without a usable cache file and with a
    writable one, whose request comes back with a body that reports success
    and holds [data], makes one call and leaves the payload on the file.  A
    later process that finds this file, and starts less than 3600 s after
    the first, returns the same scores, failed list and call count for the
    same tickers (in any letter case) without a request: one cache hit and
    the 100 ms pause. *)
Theorem second_run_is_served_from_cache (tickers : list string) (w : world)
    (api_key : string) (status : Z) (data : value) (rest : list http_reply) :
  env_key w = Some api_key -> api_key <> "" ->
  0 < length tickers <= BATCH_SIZE ->
  load_failure (disk w) ->
  disk_writable w = true ->
  net w = Reply status (Some data) :: rest ->
  api_success status data = Ok true ->
  has_data data = Ok true ->
  exists st w1,
    process_all_tickers tickers w = (Ok (st, 100000%Z), w1)
    /\ api_calls st = 1
    /\ net w1 = rest
    /\ forall tickers2 w2 api_key2,
         Py.upper <$> tickers2 = Py.upper <$> tickers ->
         env_key w2 = Some api_key2 -> api_key2 <> "" ->
         disk w2 = disk w1 ->
         (clock w2 - clock w < CACHE_EXPIRY * 1000000)%Z ->
         exists w3,
           process_all_tickers tickers2 w2 = (Ok (st, 100000%Z), w3)
           /\ net w3 = net w2
           /\ trace w3 = trace w2 ++ [EvFetch (Py.upper <$> tickers); EvSleep Pacing 100000].
Proof.
  intros Hkey Hne Hlen Hload Hwr Hnet Hok Hdata.
  set (batch := Py.upper <$> tickers).
  set (c1 := stored CryptoCache.empty_cache (clock w) (batch_key batch) "quotes" data).
  assert (Hinit : CryptoCache.init w = (Ok tt, with_cache w CryptoCache.empty_cache)).
  { unfold CryptoCache.init, bindM. by rewrite (load_cache_failure _ Hload). }
  assert (Hq : get_batch_quotes batch api_key (with_cache w CryptoCache.empty_cache)
               = (Ok data,
                  World (env_key w) (FileDoc c1) true (clock w) rest c1
                    ((trace w ++ [EvFetch batch]) ++ [EvHttpGet batch]))).
  { rewrite (get_batch_quotes_fetch batch api_key _ status data rest);
      [|apply empty_cache_wf|reflexivity|exact Hnet|exact Hok].
    unfold saved. cbn [with_cache disk_writable env_key disk clock cache trace].
    by rewrite Hwr. }
  eexists _, _. split; [|split; [|split]].
  - rewrite (process_all_single_batch _ _ _ Hkey Hne Hlen), Hinit. cbn [snd].
    fold batch. rewrite (process_batch_first_try _ _ _ _ _ _ Hq Hdata).
    cbn [sleep snd clock]. do 3 f_equal. lia.
  - by rewrite symbol_loop_api_calls.
  - reflexivity.
  - intros tickers2 w2 api_key2 Hsame Hkey2 Hne2 Hdisk Hnow.
    cbn [disk] in Hdisk.
    assert (Hlen2 : 0 < length tickers2 <= BATCH_SIZE).
    { pose proof (f_equal length Hsame) as Hl. unfold batch in Hl.
      rewrite !length_fmap in Hl. by rewrite Hl. }
    destruct (stored_wf CryptoCache.empty_cache (clock w) (batch_key batch) "quotes" data
                empty_cache_wf) as (d1 & Hd1 & _).
    fold c1 in Hd1.
    set (c2 := VDict (ensured (ensured d1 "quotes") "timestamp")).
    assert (Hinit2 : CryptoCache.init w2 = (Ok tt, with_cache w2 c2)).
    { unfold CryptoCache.init, bindM.
      rewrite (load_cache_document d1 w2) by (by rewrite Hdisk, Hd1). reflexivity. }
    destruct (api_success_inv _ _ Hok) as [_ Htruthy].
    assert (Hentry : entry c2 "quotes" (batch_key batch) = data).
    { unfold c2. rewrite !ensured_entry, <- Hd1. unfold c1.
      apply entry_stored_same; [apply empty_cache_wf|discriminate]. }
    assert (Hhit : cache_hit (cache (with_cache w2 c2)) (clock (with_cache w2 c2)) batch
                   = true).
    { unfold cache_hit. cbn [with_cache cache clock]. rewrite Hentry, Htruthy, andb_true_r.
      unfold c2. rewrite !fresh_ensured, <- Hd1. unfold c1.
      rewrite fresh_stored by apply empty_cache_wf. by apply Z.ltb_lt. }
    eexists. split; [|split].
    + rewrite (process_all_single_batch _ _ _ Hkey2 Hne2 Hlen2), Hinit2. cbn [snd].
      rewrite Hsame. fold batch.
      rewrite (process_batch_first_try _ _ (Locals ∅ [] 0) _ data
                 (entered batch (with_cache w2 c2))).
      * cbn [sleep snd clock entered with_cache]. do 3 f_equal. lia.
      * rewrite (get_batch_quotes_hit _ _ _ Hhit). cbn [with_cache cache].
        by rewrite Hentry.
      * exact Hdata.
    + reflexivity.
    + cbn. by rewrite <- app_assoc.
Qed.
End WarmRunFacts.

(** ** Runs one after another *)

Section ChainFacts.
Context `{IsoFormat}.

Lemma set_benign key v :
  safe_payload v ->
  triple benign_world (CryptoCache.set key "quotes" v) (fun _ => benign_world) never.
Proof.
  intros Hv w [Hw Hd].
  pose proof (set_safe key v Hv w Hw) as Hsafe.
  destruct (set_shape key "quotes" v w) as (w1 & c & Hrun & Hw1).
  rewrite Hrun in *. split; [exact Hsafe|].
  destruct Hw1 as [-> | ->]; [exact Hd|].
  unfold saved in *. cbn [with_cache disk_writable] in *.
  destruct (disk_writable w); [exact Hsafe|exact Hd].
Qed.

Lemma get_batch_quotes_benign symbols api_key :
  triple benign_world (get_batch_quotes symbols api_key)
    (fun v w => benign_world w /\ safe_payload v) never.
Proof.
  intros w [Hw Hd].
  destruct (cache_hit (cache w) (clock w) symbols) eqn:Hhit.
  - rewrite (get_batch_quotes_hit _ _ _ Hhit). split; [split; assumption|]. apply Hw.
  - rewrite (get_batch_quotes_miss _ _ _ Hhit).
    unfold try_except, bindM, http_get, raise, ret, lift, sleep.
    cbn [net entered env_key disk disk_writable clock cache trace].
    assert (forall k dw t n tr,
              benign_world (World k (disk w) dw t n (cache w) tr) /\ safe_payload VNone)
      as Hnone.
    { intros. split; [split; assumption|apply safe_none]. }
    destruct (net w) as [|[|status body] rest]; try apply Hnone.
    destruct (Z.eqb status 429); [apply Hnone|].
    destruct body as [data|]; [|apply Hnone].
    destruct (api_success status data) as [[|]|e] eqn:Hok; try apply Hnone.
    + assert (Hdata : safe_payload data).
      { unfold api_success in Hok. destruct (Z.eqb status 200); [|discriminate].
        destruct data; try discriminate. apply safe_dict. }
      match goal with |- context [CryptoCache.set ?k ?t ?v ?w0] =>
        pose proof (set_benign k v Hdata w0 (conj Hw Hd)) as Hset;
        destruct (CryptoCache.set k t v w0) as [[[]|e] w1] end; [|destruct Hset].
      split; [exact Hset|exact Hdata].
    + destruct (api_error_message data); apply Hnone.
Qed.

Lemma retry_loop_benign retries batch api_key quote_data api_calls :
  safe_payload quote_data ->
  triple benign_world (retry_loop retries batch api_key quote_data api_calls)
    (fun r w => benign_world w /\ safe_payload (fst r)) never.
Proof.
  revert quote_data api_calls.
  induction retries as [|retry rest IH]; intros quote_data api_calls Hq w Hw.
  { cbn. auto. }
  cbn [retry_loop]. unfold bindM.
  pose proof (get_batch_quotes_benign batch api_key w Hw) as Hget.
  destruct (get_batch_quotes batch api_key w) as [[v|e] w1]; [|destruct Hget].
  destruct Hget as [Hw1 [b Hb]].
  unfold lift at 1. rewrite Hb. destruct b.
  { cbn. split; [exact Hw1 | exists true; exact Hb]. }
  destruct (Nat.ltb retry 2).
  - unfold sleep. cbv beta iota.
    apply (IH v (S api_calls)); [exists false; exact Hb|]. exact Hw1.
  - unfold ret at 1. cbv beta iota.
    apply (IH v (S api_calls)); [exists false; exact Hb | exact Hw1].
Qed.

Lemma process_batch_benign api_key batch st :
  triple benign_world (process_batch api_key batch st) (fun _ => benign_world) never.
Proof.
  intros w Hw. unfold process_batch, bindM.
  pose proof (retry_loop_benign (seq 0 3) batch api_key VNone (api_calls st) safe_none w Hw)
    as Hloop.
  destruct (retry_loop (seq 0 3) batch api_key VNone (api_calls st) w)
    as [[[q n]|e] w1]; [|destruct Hloop].
  destruct Hloop as [Hw1 [b Hb]]. cbn [fst snd] in *. unfold lift. rewrite Hb.
  destruct b; cbn; exact Hw1.
Qed.

Lemma for_batches_benign starts tickers api_key st :
  triple benign_world (for_batches starts tickers api_key st) (fun _ => benign_world) never.
Proof.
  revert st. induction starts as [|i rest IH]; intros st.
  - apply triple_ret. auto.
  - cbn [for_batches]. eapply triple_bind; [apply process_batch_benign|].
    intros st'. apply IH.
Qed.

Lemma init_benign :
  triple (fun w => disk_benign (disk w)) CryptoCache.init (fun _ => benign_world) never.
Proof.
  intros w Hw. pose proof (init_safe w Hw) as Hsafe.
  destruct (init_run w) as (c & Hinit). rewrite Hinit in *.
  split; [exact Hsafe|exact Hw].
Qed.

Lemma process_all_benign tickers w api_key :
  env_key w = Some api_key -> api_key <> "" ->
  disk_benign (disk w) ->
  exists r w', process_all_tickers tickers w = (Ok r, w') /\ benign_world w'.
Proof.
  intros Hkey Hne Hdisk.
  unfold process_all_tickers, bindM, datetime_now, getenv. rewrite Hkey.
  destruct (String.eqb_spec api_key "") as [->|_]; [congruence|].
  pose proof (init_benign w Hdisk) as Hinit.
  destruct (CryptoCache.init w) as [[[]|e] w1]; [|destruct Hinit].
  set (T := Py.upper <$> tickers).
  pose proof (for_batches_benign (range_step (length T) BATCH_SIZE) T api_key
                (Locals ∅ [] 0) w1 Hinit) as Hloop.
  destruct (for_batches _ T api_key _ w1) as [[st|e] w2]; [|destruct Hloop].
  cbn. eauto.
Qed.

(** X14: the program never spoils its own cache file.  A run that has a
    credential and starts from a cache file that is absent, unreadable, not
    JSON, or whose cached quote payloads are all safe for the test
    ['data' in quote_data], returns whatever the network replies and leaves
    a cache file of that kind: every later process that finds this file
    returns as well. *)
Theorem run_leaves_usable_cache_file (tickers : list string) (w : world)
    (api_key : string) :
  env_key w = Some api_key -> api_key <> "" ->
  disk_benign (disk w) ->
  exists r w',
    process_all_tickers tickers w = (Ok r, w')
    /\ disk_benign (disk w')
    /\ forall tickers2 w2 api_key2,
         env_key w2 = Some api_key2 -> api_key2 <> "" ->
         disk w2 = disk w' ->
         exists r2 w3,
           process_all_tickers tickers2 w2 = (Ok r2, w3) /\ disk_benign (disk w3).
Proof.
  intros Hkey Hne Hdisk.
  destruct (process_all_benign tickers w api_key Hkey Hne Hdisk)
    as (r & w' & Hrun & _ & Hd').
  exists r, w'. split; [exact Hrun|]. split; [exact Hd'|].
  intros tickers2 w2 api_key2 Hkey2 Hne2 Hsame.
  rewrite <- Hsame in Hd'.
  destruct (process_all_benign tickers2 w2 api_key2 Hkey2 Hne2 Hd')
    as (r2 & w3 & Hrun2 & _ & Hd3).
  eauto.
Qed.

End ChainFacts.

(** ** The ticker file *)

Section TickerFacts.

Lemma lstrip_first s :
  match first_char (Py.lstrip s) with Some c => Py.isspace c = false | None => True end.
Proof.
  induction s as [|c r IH]; cbn; [exact I|].
  destruct (Py.isspace c) eqn:Hc; [exact IH|]. cbn. exact Hc.
Qed.

Lemma rstrip_last s :
  match last_char (Py.rstrip s) with Some c => Py.isspace c = false | None => True end.
Proof.
  induction s as [|c r IH]; cbn [Py.rstrip]; [exact I|].
  destruct (Py.rstrip r) as [|c' r'] eqn:Hr.
  - destruct (Py.isspace c) eqn:Hc; cbn; auto.
  - exact IH.
Qed.

Lemma rstrip_lstrip s : Py.rstrip (Py.lstrip s) = Py.lstrip (Py.rstrip s).
Proof.
  induction s as [|c r IH]; [reflexivity|].
  cbn [Py.lstrip Py.rstrip]. destruct (Py.isspace c) eqn:Hc.
  - rewrite IH. destruct (Py.rstrip r) as [|c' r']; [reflexivity|].
    symmetry. cbn [Py.lstrip]. by rewrite Hc.
  - cbn [Py.rstrip]. destruct (Py.rstrip r) as [|c' r']; cbn [Py.lstrip]; by rewrite Hc.
Qed.

Lemma lstrip_idemp s : Py.lstrip (Py.lstrip s) = Py.lstrip s.
Proof.
  induction s as [|c r IH]; [reflexivity|].
  cbn [Py.lstrip]. destruct (Py.isspace c) eqn:Hc; [exact IH|].
  cbn [Py.lstrip]. by rewrite Hc.
Qed.

Lemma rstrip_idemp s : Py.rstrip (Py.rstrip s) = Py.rstrip s.
Proof.
  induction s as [|c r IH]; [reflexivity|].
  cbn [Py.rstrip]. destruct (Py.rstrip r) as [|c' r'] eqn:Hr.
  - destruct (Py.isspace c) eqn:Hc; [reflexivity|]. cbn [Py.rstrip]. by rewrite Hc.
  - cbn [Py.rstrip]. cbn [Py.rstrip] in IH. by rewrite IH.
Qed.

Lemma strip_idemp s : Py.strip (Py.strip s) = Py.strip s.
Proof.
  unfold Py.strip. by rewrite rstrip_lstrip, rstrip_idemp, lstrip_idemp.
Qed.

Lemma strip_not_padded s : padded (Py.strip s) = false.
Proof.
  unfold padded. pose proof (lstrip_first (Py.rstrip s)) as Hf. fold (Py.strip s) in Hf.
  destruct (first_char (Py.strip s)) as [a|]; [|reflexivity].
  destruct (last_char (Py.strip s)) as [b|] eqn:Hb; [|reflexivity].
  rewrite Hf. cbn.
  pose proof (rstrip_last (Py.lstrip s)) as Hl. rewrite rstrip_lstrip in Hl.
  fold (Py.strip s) in Hl. by rewrite Hb in Hl.
Qed.

Lemma read_tickers_app l1 l2 : read_tickers (l1 ++ l2) = read_tickers l1 ++ read_tickers l2.
Proof. unfold read_tickers. by rewrite List.filter_app, fmap_app. Qed.

(** X15: the ticker list [main] reads from the lines of the ticker file:
    every ticker is the stripped form of a line, is not empty and neither
    starts nor ends with whitespace; a line of whitespace only is skipped
    wherever it stands; reading the tickers back as lines gives the same
    list. *)
Theorem read_tickers_clean (lines : list string) :
  (forall t, t ∈ read_tickers lines ->
     t <> "" /\ Py.strip t = t /\ padded t = false /\ exists line, line ∈ lines /\ t = Py.strip line)
  /\ (forall pre blank post,
        lines = pre ++ blank :: post -> Py.strip blank = "" ->
        read_tickers lines = read_tickers (pre ++ post))
  /\ read_tickers (read_tickers lines) = read_tickers lines.
Proof.
  split; [|split].
  - intros t Ht. unfold read_tickers in Ht.
    apply list_elem_of_fmap in Ht as (line & -> & Hin).
    apply list_elem_of_In, List.filter_In in Hin as [Hin Hne].
    cbn in Hne. apply negb_true_iff, String.eqb_neq in Hne.
    split; [exact Hne|]. split; [apply strip_idemp|]. split; [apply strip_not_padded|].
    exists line. split; [by apply list_elem_of_In|reflexivity].
  - intros pre blank post -> Hblank.
    rewrite !read_tickers_app. f_equal.
    unfold read_tickers. cbn [List.filter Py.truthy]. by rewrite Hblank.
  - induction lines as [|line lines IH]; [reflexivity|].
    change (line :: lines) with ([line] ++ lines).
    rewrite read_tickers_app, read_tickers_app, IH. f_equal.
    unfold read_tickers. cbn [List.filter Py.truthy app].
    destruct (negb (Py.strip line =? "")) eqn:Hne; [|reflexivity].
    cbn [fmap list_fmap List.filter Py.truthy]. rewrite strip_idemp, Hne.
    cbn. by rewrite strip_idemp.
Qed.

End TickerFacts.

(** ** Concrete runs of the further properties *)

(** The batch ETH, BTC and the batch BTC, ETH share the key [BTC,ETH]. *)
Lemma batch_key_order_independent_witness :
  batch_key ["ETH"; "BTC"] = "BTC,ETH"
  /\ batch_key ["ETH"; "BTC"] = batch_key ["BTC"; "ETH"].
Proof.
  split; [reflexivity|].
  apply (batch_key_order_independent ["ETH"; "BTC"] ["BTC"; "ETH"]).
  apply perm_swap.
Defined.

(** The batch ETH, BTC is fetched on a cold cache; asked for as BTC, ETH one
    microsecond before the hour is over it is served from the cache, and at
    the hour it is a miss. *)
Lemma fetched_batch_is_cached_witness :
  exists w1,
    get_batch_quotes ["ETH"; "BTC"] "secret" (cold_world [Reply 200 (Some two_quotes)])
    = (Ok two_quotes, w1)
    /\ get_batch_quotes ["BTC"; "ETH"] "secret" (at_time w1 3599999999)
       = (Ok two_quotes, entered ["BTC"; "ETH"] (at_time w1 3599999999))
    /\ cache_hit (cache w1) 3600000000 ["BTC"; "ETH"] = false.
Proof.
  assert (Hmiss : cache_hit (cache (cold_world [Reply 200 (Some two_quotes)]))
                    (clock (cold_world [Reply 200 (Some two_quotes)])) ["ETH"; "BTC"]
                  = false) by (vm_compute; reflexivity).
  assert (Hok : api_success 200 two_quotes = Ok true) by (vm_compute; reflexivity).
  destruct (fetched_batch_is_cached ["ETH"; "BTC"] "secret"
              (cold_world [Reply 200 (Some two_quotes)]) 200 two_quotes []
              empty_cache_wf Hmiss eq_refl Hok)
    as (w1 & Hrun & _ & _ & Hhit & Hexp).
  exists w1. split; [exact Hrun|]. split.
  - apply Hhit; [apply perm_swap|reflexivity].
  - apply Hexp; [apply perm_swap|discriminate].
Defined.

(** A 429 on a cold cache: no data, the cache still empty, no file, and ten
    seconds gone. *)
Lemma failed_fetch_changes_nothing_witness :
  exists w',
    get_batch_quotes ["BTC"] "secret" (cold_world [Reply 429 None]) = (Ok VNone, w')
    /\ cache w' = CryptoCache.empty_cache /\ disk w' = FileAbsent /\ net w' = []
    /\ clock w' = 10000000%Z.
Proof.
  assert (Hmiss : cache_hit (cache (cold_world [Reply 429 None]))
                    (clock (cold_world [Reply 429 None])) ["BTC"] = false)
    by (vm_compute; reflexivity).
  assert (Hfail : failing (Reply 429 None)) by (left; reflexivity).
  exact (failed_fetch_changes_nothing ["BTC"] "secret" (cold_world [Reply 429 None])
           (Reply 429 None) [] Hmiss eq_refl Hfail).
Defined.

(** An entry set on a cold cache is on the file, and a restarted process
    answers from it as the first one does. *)
Lemma set_survives_restart_witness :
  exists w1,
    CryptoCache.set "BTC" "quotes" (VStr "payload") (cold_world []) = (Ok tt, w1)
    /\ disk w1 = FileDoc (cache w1)
    /\ exists c,
         CryptoCache.init (restarted w1) = (Ok tt, with_cache (restarted w1) c)
         /\ forall k t now,
              fst (CryptoCache.get k t (at_time (with_cache (restarted w1) c) now))
              = fst (CryptoCache.get k t (at_time w1 now)).
Proof.
  destruct (set_survives_restart (cold_world []) "BTC" "quotes" (VStr "payload")
              empty_cache_wf eq_refl) as (w1 & Hset & Hdisk & Hre).
  exists w1. split; [exact Hset|]. split; [exact Hdisk|].
  apply (Hre (restarted w1)). reflexivity.
Defined.

(** Setting ETH does not touch the entry of BTC: read within the hour of its
    stamp, it is served as before. *)
Lemma set_leaves_other_keys_witness :
  exists w1,
    CryptoCache.set "ETH" "quotes" (VStr "new") stale_world = (Ok tt, w1)
    /\ fst (CryptoCache.get "BTC" "quotes" (at_time w1 1000)) = Ok (VStr "old payload").
Proof.
  destruct (set_leaves_other_keys stale_world "ETH" "quotes" (VStr "new") stale_world_wf)
    as (w1 & Hset & Hother).
  exists w1. split; [exact Hset|].
  rewrite (Hother "BTC" "quotes" 1000%Z) by discriminate.
  vm_compute. reflexivity.
Defined.

(** One batch over the flaky network: three calls, within the bounds for one
    batch. *)
Lemma api_calls_bounds_witness :
  api_calls (final_locals flaky_run) = 3
  /\ exists tl,
       trace (snd flaky_run) = trace flaky_world ++ tl
       /\ api_calls (final_locals flaky_run) = calls_made tl
       /\ requests_made tl <= api_calls (final_locals flaky_run)
       /\ 1 <= api_calls (final_locals flaky_run) <= 3.
Proof.
  split; [vm_compute; reflexivity|].
  assert (Hkey : env_key flaky_world = Some "secret") by reflexivity.
  assert (Hrun : process_all_tickers ["btc"] flaky_world
                 = (Ok (final_locals flaky_run, 3100000%Z), snd flaky_run))
    by (vm_compute; reflexivity).
  exact (api_calls_bounds ["btc"] flaky_world "secret" (final_locals flaky_run)
           3100000%Z (snd flaky_run) Hkey Hrun).
Defined.

(** In the scenario BTC is scored at the price 100, which is above zero. *)
Lemma scored_prices_are_positive_witness :
  results (final_locals scenario_run) !! "BTC" = Some (8.5%float, VFloat 100)
  /\ Py.truthy (VFloat 100) = true /\ Py.gt_zero (VFloat 100) = Ok true.
Proof.
  assert (Hkey : env_key scenario_world = Some "secret") by reflexivity.
  assert (Hrun : process_all_tickers ["btc"; "eth"; "xyz"] scenario_world
                 = (Ok (final_locals scenario_run, 100000%Z), snd scenario_run))
    by (vm_compute; reflexivity).
  assert (Hbtc : results (final_locals scenario_run) !! "BTC"
                 = Some (8.5%float, VFloat 100))
    by (vm_compute; reflexivity).
  split; [exact Hbtc|].
  exact (scored_prices_are_positive ["btc"; "eth"; "xyz"] scenario_world "secret"
           (final_locals scenario_run) 100000%Z (snd scenario_run) Hkey Hrun
           "BTC" 8.5%float (VFloat 100) Hbtc).
Defined.

(** No tickers over the flaky network: nothing is fetched. *)
Lemma no_tickers_no_requests_witness :
  exists c,
    process_all_tickers [] flaky_world = (Ok (Locals ∅ [] 0, 0%Z), with_cache flaky_world c)
    /\ CryptoCache._load_cache flaky_world = (Ok c, flaky_world).
Proof.
  apply (no_tickers_no_requests flaky_world "secret"); [reflexivity|discriminate].
Defined.

(** In the scenario the ticker xyz is recorded as XYZ. *)
Lemma recorded_symbols_are_uppercase_witness :
  recorded (final_locals scenario_run) "XYZ" /\ Py.upper "XYZ" = "XYZ".
Proof.
  assert (Hkey : env_key scenario_world = Some "secret") by reflexivity.
  assert (Hrun : process_all_tickers ["btc"; "eth"; "xyz"] scenario_world
                 = (Ok (final_locals scenario_run, 100000%Z), snd scenario_run))
    by (vm_compute; reflexivity).
  assert (Hrec : recorded (final_locals scenario_run) "XYZ").
  { right. unfold in_failed.
    assert (failed_tokens (final_locals scenario_run) = ["XYZ"]) as ->
      by (vm_compute; reflexivity).
    apply list_elem_of_here. }
  split; [exact Hrec|].
  exact (recorded_symbols_are_uppercase ["btc"; "eth"; "xyz"] scenario_world "secret"
           (final_locals scenario_run) 100000%Z (snd scenario_run) Hkey Hrun "XYZ" Hrec).
Defined.

(** The scenario run, then a second process 50 minutes later that asks for
    the same tickers in another letter case: the same result, from the
    cache. *)
Lemma second_run_is_served_from_cache_witness :
  exists st w1,
    process_all_tickers ["btc"; "eth"; "xyz"] scenario_world = (Ok (st, 100000%Z), w1)
    /\ api_calls st = 1
    /\ exists w3,
         process_all_tickers ["BTC"; "Eth"; "xyz"] (later_process (disk w1) 3000000000)
         = (Ok (st, 100000%Z), w3)
         /\ net w3 = []
         /\ trace w3 = [EvFetch ["BTC"; "ETH"; "XYZ"]; EvSleep Pacing 100000].
Proof.
  assert (Hlen : 0 < length ["btc"; "eth"; "xyz"] <= BATCH_SIZE)
    by (unfold BATCH_SIZE; cbn; lia).
  assert (Hload : load_failure (disk scenario_world)) by (left; reflexivity).
  assert (Hok : api_success 200 two_quotes = Ok true) by (vm_compute; reflexivity).
  assert (Hdata : has_data two_quotes = Ok true) by (vm_compute; reflexivity).
  assert (Hne : "secret" <> "") by discriminate.
  assert (Hkey : env_key scenario_world = Some "secret") by reflexivity.
  assert (Hwr : disk_writable scenario_world = true) by reflexivity.
  assert (Hnet0 : net scenario_world = Reply 200 (Some two_quotes) :: [])
    by (vm_compute; reflexivity).
  destruct (second_run_is_served_from_cache ["btc"; "eth"; "xyz"] scenario_world
              "secret" 200 two_quotes [] Hkey Hne Hlen Hload Hwr Hnet0 Hok Hdata)
    as (st & w1 & Hrun & Hcalls & _ & Hsecond).
  exists st, w1. split; [exact Hrun|]. split; [exact Hcalls|].
  assert (Hupper : Py.upper <$> ["BTC"; "Eth"; "xyz"] = Py.upper <$> ["btc"; "eth"; "xyz"])
    by (vm_compute; reflexivity).
  assert (Hclock : (clock (later_process (disk w1) 3000000000) - clock scenario_world
                    < CACHE_EXPIRY * 1000000)%Z)
    by (vm_compute; reflexivity).
  assert (Hkey2 : env_key (later_process (disk w1) 3000000000) = Some "secret")
    by reflexivity.
  assert (Hdisk : disk (later_process (disk w1) 3000000000) = disk w1) by reflexivity.
  destruct (Hsecond ["BTC"; "Eth"; "xyz"] (later_process (disk w1) 3000000000) "secret"
              Hupper Hkey2 Hne Hdisk Hclock) as (w3 & Hrun2 & Hnet & Htrace).
  exists w3. split; [exact Hrun2|]. split; [exact Hnet|exact Htrace].
Defined.

(** A first run over the flaky network leaves a cache file from which a
    later process, with no network at all, returns as well. *)
Lemma run_leaves_usable_cache_file_witness :
  exists r w',
    process_all_tickers ["btc"] flaky_world = (Ok r, w')
    /\ disk_benign (disk w')
    /\ exists r2 w3,
         process_all_tickers ["eth"] (later_process (disk w') 0) = (Ok r2, w3)
         /\ disk_benign (disk w3).
Proof.
  assert (Hkey : env_key flaky_world = Some "secret") by reflexivity.
  assert (Hne : "secret" <> "") by discriminate.
  assert (Hdisk : disk_benign (disk flaky_world)) by exact I.
  destruct (run_leaves_usable_cache_file ["btc"] flaky_world "secret" Hkey Hne Hdisk)
    as (r & w' & Hrun & Hd' & Hnext).
  exists r, w'. split; [exact Hrun|]. split; [exact Hd'|].
  apply (Hnext ["eth"] (later_process (disk w') 0) "secret"); [reflexivity|exact Hne|].
  reflexivity.
Defined.
